(** * wiki-go: relocation handler and session store

    A shallow embedding of [internal/handlers/move.go] and
    [internal/auth/auth.go], with the parts of the Go standard library they
    call ([strings], [path/filepath], [os]) modelled next to them. *)

From Stdlib Require Import Ascii String List Bool Arith NArith ZArith Lia.
From stdpp Require Import base option gmap strings.

Local Open Scope string_scope.
Local Open Scope list_scope.

(** ** Go's [strings] package

    A Go string is a sequence of bytes; it is modelled by [string], whose
    characters are the 256 values of [ascii]. *)
Module strings.

(** [strings.HasPrefix(s, prefix)]. *)
Definition HasPrefix (s prefix : string) : bool := String.prefix prefix s.

(** [strings.HasSuffix(s, suffix)]: some tail of [s] is [suffix]. *)
Fixpoint HasSuffix (s suffix : string) : bool :=
  if String.eqb s suffix then true
  else match s with
       | EmptyString => false
       | String _ r => HasSuffix r suffix
       end.

(** [strings.TrimPrefix(s, prefix)]: [s] without the leading [prefix], or
    [s] itself when it does not start with it. *)
Definition TrimPrefix (s prefix : string) : string :=
  if HasPrefix s prefix
  then String.substring (String.length prefix)
                        (String.length s - String.length prefix) s
  else s.

(** [strings.TrimSuffix(s, suffix)]. *)
Definition TrimSuffix (s suffix : string) : string :=
  if HasSuffix s suffix
  then String.substring 0 (String.length s - String.length suffix) s
  else s.

(** [strings.ReplaceAll(s, old, new)] for one-byte [old] and [new], the
    only way [cleanPath] calls it. *)
Fixpoint ReplaceAll (s : string) (old new : ascii) : string :=
  match s with
  | EmptyString => EmptyString
  | String c r =>
      String (if Ascii.eqb c old then new else c) (ReplaceAll r old new)
  end.

(** [strings.ContainsRune(s, r)] for a rune of one byte. *)
Fixpoint ContainsRune (s : string) (r : ascii) : bool :=
  match s with
  | EmptyString => false
  | String c rest => Ascii.eqb c r || ContainsRune rest r
  end.

(** [strings.ToLower(s)] and [strings.EqualFold(s, t)] read their
    arguments as UTF-8 and map each rune through the tables of Go's
    [unicode] package ([unicode.ToLower], [unicode.SimpleFold]), which are
    data of the Go release: [EqualFold] holds of the long s (U+017F) and
    [s], of the Kelvin sign (U+212A) and [k]. The two functions are taken
    as an interface, as the calls of [os] are below; what is proved of the
    handler is proved for every implementation of it. *)
Class CaseFolding := {
  ToLower : string -> string;
  EqualFold : string -> string -> bool
}.

(** The two functions on strings of ASCII bytes, where no table is needed:
    the letters [A]..[Z] (65..90) move to [a]..[z] and every other byte is
    kept. On a string with a byte above 127 this is not what Go computes;
    the instance serves to run the handler on requests written in ASCII. *)
Definition lowerByte (c : ascii) : ascii :=
  let n := nat_of_ascii c in
  if Nat.leb 65 n && Nat.leb n 90 then ascii_of_nat (n + 32) else c.

Fixpoint lowerBytes (s : string) : string :=
  match s with
  | EmptyString => EmptyString
  | String c r => String (lowerByte c) (lowerBytes r)
  end.

Definition asciiFolding : CaseFolding := {|
  ToLower := lowerBytes;
  EqualFold s t := String.eqb (lowerBytes s) (lowerBytes t)
|}.

(** [strings.Join(elems, sep)]. *)
Fixpoint Join (elems : list string) (sep : string) : string :=
  match elems with
  | [] => ""
  | [e] => e
  | e :: rest => e +:+ sep +:+ Join rest sep
  end.

End strings.

(** ** Go's [path/filepath] package, for a Unix target ([Separator] is
    the slash and there are no volume names) *)
Module filepath.

Definition Separator : ascii := "/"%char.

Definition IsPathSeparator (c : ascii) : bool := Ascii.eqb c Separator.

(** The elements of a path: the maximal runs of bytes between separators
    (empty where two separators meet, and at a leading or trailing one). *)
Fixpoint elements (path : string) : list string :=
  match path with
  | EmptyString => [""]
  | String c r =>
      if IsPathSeparator c then "" :: elements r
      else match elements r with
           | e :: es => String c e :: es
           | [] => [String c ""]
           end
  end.

(** One element of the path processed by [Clean]; [out] is the output so
    far, last element first. Empty and [.] elements are dropped; a [..]
    removes the element before it, unless there is none to remove: then it
    is kept on a relative path and dropped on a rooted one. *)
Definition cleanStep (rooted : bool) (out : list string) (e : string)
  : list string :=
  if String.eqb e "" then out
  else if String.eqb e "." then out
  else if String.eqb e ".." then
    match out with
    | top :: rest =>
        if String.eqb top ".." then (if rooted then out else e :: out)
        else rest
    | [] => if rooted then out else [e]
    end
  else e :: out.

(** The shape of what [Clean] keeps. A name is an element that is not empty,
    not [.], and has no separator in it; the output, last element first, is
    made of names, and a [..] has nothing but [..] elements before it, and
    none at all on a rooted path. *)
Fixpoint noSeparator (s : string) : bool :=
  match s with
  | EmptyString => true
  | String c r => negb (IsPathSeparator c) && noSeparator r
  end.

Definition isName (e : string) : bool :=
  negb (String.eqb e "") && negb (String.eqb e ".") && noSeparator e.

Fixpoint cleanStack (rooted : bool) (out : list string) : bool :=
  match out with
  | [] => true
  | e :: rest =>
      isName e
      && (if String.eqb e ".."
          then negb rooted && List.forallb (String.eqb "..") rest
          else true)
      && cleanStack rooted rest
  end.

Definition rooted (path : string) : bool :=
  match path with
  | String c _ => IsPathSeparator c
  | EmptyString => false
  end.

(** [filepath.Clean(path)]: the shortest path equivalent to [path] by
    purely lexical processing; the empty path becomes ["."]. *)
Definition Clean (path : string) : string :=
  if String.eqb path "" then "."
  else
    let out := rev (fold_left (cleanStep (rooted path)) (elements path) []) in
    if rooted path then String Separator (strings.Join out "/")
    else match out with
         | [] => "."
         | _ => strings.Join out "/"
         end.

(** The part of [path] up to and including its last separator (empty when
    it has none), and the part after it. *)
Fixpoint splitLast (path : string) : string * string :=
  match path with
  | EmptyString => ("", "")
  | String c r =>
      let '(d, f) := splitLast r in
      if String.eqb d "" then
        if IsPathSeparator c then (String c "", r) else ("", String c r)
      else (String c d, f)
  end.

(** [filepath.Dir(path)]: all but the last element of [path], cleaned. *)
Definition Dir (path : string) : string := Clean (fst (splitLast path)).

(** [path] without its trailing separators. *)
Fixpoint stripTrailingSeps (path : string) : string :=
  match path with
  | EmptyString => ""
  | String c r =>
      let r' := stripTrailingSeps r in
      if String.eqb r' "" && IsPathSeparator c then "" else String c r'
  end.

(** [filepath.Base(path)]: the last element of [path], after its trailing
    separators are removed; ["."] for the empty path and the separator for
    a path of separators only. *)
Definition Base (path : string) : string :=
  if String.eqb path "" then "."
  else
    let p := snd (splitLast (stripTrailingSeps path)) in
    if String.eqb p "" then String Separator "" else p.

(** [filepath.Join(elem...)]: the elements from the first non-empty one on
    are joined with the separator and the result is cleaned; no non-empty
    element gives the empty string. *)
Fixpoint Join (elem : list string) : string :=
  match elem with
  | [] => ""
  | e :: rest =>
      if String.eqb e "" then Join rest
      else Clean (strings.Join elem "/")
  end.

End filepath.

(** ** [encoding/base64]: the URL-safe alphabet with padding *)
Module base64.

Definition encodeURL : string :=
  "ABCDEFGHIJKLMNOPQRSTUVWXYZabcdefghijklmnopqrstuvwxyz0123456789-_".

Definition digit (n : N) : ascii :=
  match String.get (N.to_nat (n mod 64)) encodeURL with
  | Some c => c
  | None => "="%char
  end.

(** [base64.URLEncoding.EncodeToString(b)]: three bytes give four digits;
    one or two bytes left at the end are padded with [=]. *)
Fixpoint EncodeToString (b : string) : string :=
  match b with
  | EmptyString => ""
  | String x EmptyString =>
      let n := (N_of_ascii x * 65536)%N in
      String (digit (n / 262144)) (String (digit (n / 4096)) "==")
  | String x (String y EmptyString) =>
      let n := (N_of_ascii x * 65536 + N_of_ascii y * 256)%N in
      String (digit (n / 262144))
        (String (digit (n / 4096)) (String (digit (n / 64)) "="))
  | String x (String y (String z r)) =>
      let n := (N_of_ascii x * 65536 + N_of_ascii y * 256
                + N_of_ascii z)%N in
      String (digit (n / 262144))
        (String (digit (n / 4096))
           (String (digit (n / 64)) (String (digit n) (EncodeToString r))))
  end.

End base64.

(** ** [net/http]: what the handlers read of a request and write as cookies *)
Module http.

Record Cookie := {
  Name : string;
  Value : string;
  Path : string;
  HttpOnly : bool;
  Secure : bool;
  SameSiteStrict : bool;
  MaxAge : Z
}.

Record Request := {
  Method : string;
  Cookies : list Cookie
}.

Definition MethodPost : string := "POST".

Definition StatusOK : nat := 200.
Definition StatusBadRequest : nat := 400.
Definition StatusUnauthorized : nat := 401.
Definition StatusNotFound : nat := 404.
Definition StatusMethodNotAllowed : nat := 405.
Definition StatusConflict : nat := 409.
Definition StatusInternalServerError : nat := 500.

(** [r.Cookie(name)]: the first cookie of the request with that name;
    [None] stands for [http.ErrNoCookie]. *)
Definition Cookie_of (r : Request) (name : string) : option Cookie :=
  List.find (fun c => String.eqb (Name c) name) (Cookies r).

End http.

(** ** [internal/config]: the fields of the configuration that are read *)
Module config.

Record WikiConfig := {
  RootDir : string;
  DocumentsDir : string;
  Private : bool
}.

Record ServerConfig := {
  AllowInsecureCookies : bool
}.

Record Config := {
  Wiki : WikiConfig;
  Server : ServerConfig
}.

End config.

(** ** [internal/auth/auth.go]

    The package keeps one map from token to session behind a lock. The
    functions below take the map and return the new one; a call is taken as
    one atomic step, which is what the lock gives. *)
Module auth.

Record Session := {
  Username : string;
  Role : string;
  CreatedAt : nat
}.

(** The package variable [sessions]. *)
Abbreviation Sessions := (gmap string Session).

(** [GenerateSessionToken]. [entropy] is what [rand.Read] delivered into
    the 32-byte buffer, or [None] when it failed; [None] as a result
    stands for the error returned. *)
Definition GenerateSessionToken (entropy : option string) : option string :=
  match entropy with
  | None => None
  | Some b => Some (base64.EncodeToString b)
  end.

(** [CreateSession]. The result is the error flag ([true]: no error), the
    new map and the cookies set on the response. [now] is [time.Now()]. *)
Definition CreateSession (entropy : option string) (now : nat)
    (username role : string) (keepLoggedIn : bool) (cfg : config.Config)
    (sessions : Sessions) : bool * Sessions * list http.Cookie :=
  match GenerateSessionToken entropy with
  | None => (false, sessions, [])
  | Some token =>
      let sessions' :=
        <[token := {| Username := username; Role := role;
                      CreatedAt := now |}]> sessions in
      let maxAge : Z :=
        if keepLoggedIn then (3600 * 24 * 30)%Z else (3600 * 24)%Z in
      let secure := negb (config.AllowInsecureCookies (config.Server cfg)) in
      (true, sessions',
       [ {| http.Name := "session_token"; http.Value := token;
            http.Path := "/"; http.HttpOnly := true; http.Secure := secure;
            http.SameSiteStrict := true; http.MaxAge := maxAge |};
         {| http.Name := "session_user"; http.Value := username;
            http.Path := "/"; http.HttpOnly := false; http.Secure := secure;
            http.SameSiteStrict := true; http.MaxAge := maxAge |} ])
  end.

(** [GetSession]: [None] is the nil pointer. *)
Definition GetSession (r : http.Request) (sessions : Sessions)
  : option Session :=
  match http.Cookie_of r "session_token" with
  | None => None
  | Some c => sessions !! http.Value c
  end.

(** [ClearSession]: the new map and the cookies set on the response. *)
Definition ClearSession (r : http.Request) (cfg : config.Config)
    (sessions : Sessions) : Sessions * list http.Cookie :=
  match http.Cookie_of r "session_token" with
  | None => (sessions, [])
  | Some c =>
      let secure := negb (config.AllowInsecureCookies (config.Server cfg)) in
      (delete (http.Value c) sessions,
       [ {| http.Name := "session_token"; http.Value := "";
            http.Path := "/"; http.HttpOnly := true; http.Secure := secure;
            http.SameSiteStrict := false; http.MaxAge := (-1)%Z |};
         {| http.Name := "session_user"; http.Value := "";
            http.Path := "/"; http.HttpOnly := false; http.Secure := secure;
            http.SameSiteStrict := false; http.MaxAge := (-1)%Z |} ])
  end.

Definition CheckAuth (r : http.Request) (sessions : Sessions)
  : option Session := GetSession r sessions.

(** [RequireAuth]. *)
Definition RequireAuth (r : http.Request) (cfg : config.Config)
    (sessions : Sessions) : bool :=
  if negb (config.Private (config.Wiki cfg)) then true
  else
    match GetSession r sessions with
    | Some _ => true
    | None => false
    end.

(** [RequireRole]. *)
Definition RequireRole (r : http.Request) (requiredRole : string)
    (sessions : Sessions) : bool :=
  match GetSession r sessions with
  | None => false
  | Some session =>
      if String.eqb requiredRole "admin" then
        String.eqb (Role session) "admin"
      else if String.eqb requiredRole "editor" then
        String.eqb (Role session) "admin"
        || String.eqb (Role session) "editor"
      else if String.eqb requiredRole "viewer" then
        String.eqb (Role session) "admin"
        || String.eqb (Role session) "editor"
        || String.eqb (Role session) "viewer"
      else false
  end.

End auth.

(** ** Go's [os] package: the calls the handler makes

    The file system is outside the program. The handler is written over an
    interface: [St] is the state of the file system and [E] the type of the
    errors of the system calls. A call that changes the file system returns
    the new state and the error, if any; [inl] is a failed call. *)
Module os.

Record FileInfo := { IsDir : bool }.

Class FileSystem (St E : Type) := {
  (** [os.Stat(name)] *)
  Stat : St -> string -> E + FileInfo;
  (** [os.ReadDir(name)]: the names of the entries of the directory *)
  ReadDir : St -> string -> E + list string;
  (** [os.MkdirAll(path, 0755)] *)
  MkdirAll : St -> string -> St * option E;
  (** [os.Rename(oldpath, newpath)] *)
  Rename : St -> string -> string -> St * option E;
  (** [os.IsNotExist(err)] *)
  IsNotExist : E -> bool;
  (** [err.Error()] *)
  Error : E -> string
}.

End os.

(** ** [internal/handlers/move.go] *)
Module handlers.

Record MoveRequest := {
  SourcePath : string;
  TargetPath : string;
  NewSlug : string
}.

Record MoveResponse := {
  Success : bool;
  Message : string;
  NewPath : string;
  OldPath : string
}.

(** What the handler writes: the status code and the JSON body. The
    [Content-Type] header is the same on every path and is left out. *)
Record Response := {
  StatusCode : nat;
  Payload : MoveResponse
}.

(** [cleanPath]. *)
Definition cleanPath (path : string) : string :=
  if String.eqb path "" then ""
  else
    let path := filepath.Clean path in
    let path := strings.TrimPrefix path "/" in
    let path := strings.TrimSuffix path "/" in
    let path := strings.ReplaceAll path "\"%char "/"%char in
    path.

(** [sendJSONResponse]. The two paths are optional fields of the body:
    an empty one is left out by the encoder. *)
Definition sendJSONResponse (success : bool) (message : string)
    (statusCode : nat) (newPath oldPath : string) : Response :=
  {| StatusCode := statusCode;
     Payload := {| Success := success; Message := message;
                   NewPath := if String.eqb newPath "" then "" else newPath;
                   OldPath := if String.eqb oldPath "" then "" else oldPath |}
  |}.

(** The lines written with [log.Printf], one constructor per call. *)
Inductive LogEntry {E : Type} : Type :=
| LogMoveToRoot (sourcePath newSlug : string)
| LogOperationAnalysis (sourceBase sourceDir : string) (moveToRoot : bool)
| LogMoveRequest (sourcePath targetPath newSlug : string)
| LogOperationType (isRename isMove : bool)
| LogCalculatedPaths (newPath fullTargetPath : string)
| LogMoving (fullSourcePath fullTargetPath : string)
| LogSamePathWarning
| LogMoveError (err : E)
| WarnVersionsMkdir (err : E)
| WarnVersionsRename (err : E)
| WarnCommentsMkdir (err : E)
| WarnCommentsRename (err : E).
Arguments LogEntry : clear implicits.

(** The entries that are warnings about a secondary directory. *)
Definition isWarning {E : Type} (entry : LogEntry E) : bool :=
  match entry with
  | WarnVersionsMkdir _ | WarnVersionsRename _
  | WarnCommentsMkdir _ | WarnCommentsRename _ => true
  | _ => false
  end.

(** Lines 66-67: both paths of the request are normalised. *)
Definition normalise (moveReq : MoveRequest) : MoveRequest :=
  {| SourcePath := cleanPath (SourcePath moveReq);
     TargetPath := cleanPath (TargetPath moveReq);
     NewSlug := NewSlug moveReq |}.

Section Guards.
Context {CF : strings.CaseFolding}.

(** The guard of lines 76-78: the source is the home page. *)
Definition isHomeSource (sourcePath : string) : bool :=
  String.eqb sourcePath "" || String.eqb sourcePath "/"
  || String.eqb sourcePath "pages/home"
  || strings.EqualFold sourcePath "pages/home"
  || strings.HasSuffix sourcePath "/homepage".

(** The guard of line 84: the target is the home page. *)
Definition isHomeTarget (targetPath : string) : bool :=
  String.eqb targetPath "pages/home"
  || strings.EqualFold targetPath "pages/home".

End Guards.

(** Lines 89-104: the kind of operation, from the normalised request. *)
Definition isRename (moveReq : MoveRequest) : bool :=
  negb (String.eqb (NewSlug moveReq) "").

Definition moveToRoot (moveReq : MoveRequest) : bool :=
  String.eqb (TargetPath moveReq) ""
  && negb (String.eqb (filepath.Dir (SourcePath moveReq)) ".").

Definition isMove (moveReq : MoveRequest) : bool :=
  negb (String.eqb (TargetPath moveReq) "") || moveToRoot moveReq.

(** Lines 132-167: the new path relative to the documents directory;
    [None] is the last branch, which answers 400. *)
Definition resolveNewPath (moveReq : MoveRequest) (isRename isMove : bool)
  : option string :=
  if isRename && negb isMove then
    let parentDir := filepath.Dir (SourcePath moveReq) in
    let parentDir := if String.eqb parentDir "." then "" else parentDir in
    Some (filepath.Join [parentDir; NewSlug moveReq])
  else if isMove && negb isRename then
    let sourceName := filepath.Base (SourcePath moveReq) in
    if String.eqb (TargetPath moveReq) "" then Some sourceName
    else Some (filepath.Join [TargetPath moveReq; sourceName])
  else if isMove && isRename then
    if String.eqb (TargetPath moveReq) "" then Some (NewSlug moveReq)
    else Some (filepath.Join [TargetPath moveReq; NewSlug moveReq])
  else None.

(** Lines 229-238 and 240-249: where the versions of a document are kept. *)
Definition versionsPath (rootDir path : string) : string :=
  if String.eqb path "pages/home" then
    filepath.Join [rootDir; "versions"; "pages"; "home"]
  else if strings.HasPrefix path "documents/" then
    filepath.Join [rootDir; "versions"; path]
  else filepath.Join [rootDir; "versions"; "documents"; path].

Section Handler.
Context {CF : strings.CaseFolding} {St E : Type} {FS : os.FileSystem St E}.

(** Lines 172-200: the message of the 409 answer, if there is one. *)
Definition detectConflict (fs : St) (moveReq : MoveRequest)
    (fullSourcePath fullTargetPath : string) : option string :=
  let targetDocPath := filepath.Join [fullTargetPath; "document.md"] in
  if negb (String.eqb fullTargetPath fullSourcePath) then
    let docConflict :=
      match os.Stat fs targetDocPath with
      | inr _ =>
          let sourceBaseLower :=
            strings.ToLower (filepath.Base (SourcePath moveReq)) in
          let targetBaseLower := strings.ToLower (NewSlug moveReq) in
          negb (String.eqb sourceBaseLower targetBaseLower)
          || String.eqb (filepath.Dir fullSourcePath)
                        (filepath.Dir fullTargetPath)
      | inl _ => false
      end in
    if docConflict then
      Some "A document already exists at the target location"
    else
      match os.Stat fs fullTargetPath with
      | inr info =>
          if os.IsDir info then
            match os.ReadDir fs fullTargetPath with
            | inr entries =>
                if Nat.ltb 0 (List.length entries) then
                  Some "Target directory already exists and is not empty"
                else None
            | inl _ => None
            end
          else None
      | inl _ => None
      end
  else None.

(** Lines 251-262 and 268-279: one secondary directory is moved if it
    exists; a failure is logged and nothing else. *)
Definition moveSecondary (warnMkdir warnRename : E -> LogEntry E)
    (fs : St) (sourcePath targetPath : string) : St * list (LogEntry E) :=
  match os.Stat fs sourcePath with
  | inr _ =>
      match os.MkdirAll fs (filepath.Dir targetPath) with
      | (fs1, Some err) => (fs1, [warnMkdir err])
      | (fs1, None) =>
          match os.Rename fs1 sourcePath targetPath with
          | (fs2, Some err) => (fs2, [warnRename err])
          | (fs2, None) => (fs2, [])
          end
      end
  | inl _ => (fs, [])
  end.

(** Lines 226-282: after the document has been moved. *)
Definition finishMove (cfg : config.Config) (moveReq : MoveRequest)
    (newPath : string) (fs : St) : St * list (LogEntry E) * Response :=
  let rootDir := config.RootDir (config.Wiki cfg) in
  let versionsSourcePath := versionsPath rootDir (SourcePath moveReq) in
  let versionsTargetPath := versionsPath rootDir newPath in
  let '(fs1, log1) :=
    moveSecondary WarnVersionsMkdir WarnVersionsRename fs
                  versionsSourcePath versionsTargetPath in
  let commentsSourcePath :=
    filepath.Join [rootDir; "comments"; SourcePath moveReq] in
  let commentsTargetPath := filepath.Join [rootDir; "comments"; newPath] in
  let '(fs2, log2) :=
    moveSecondary WarnCommentsMkdir WarnCommentsRename fs1
                  commentsSourcePath commentsTargetPath in
  (fs2, log1 ++ log2,
   sendJSONResponse true "Document moved successfully" http.StatusOK
                    newPath (SourcePath moveReq)).

(** Lines 109-224 and on: the request is valid and normalised. *)
Definition relocate (cfg : config.Config) (moveReq : MoveRequest)
    (fs : St) : St * list (LogEntry E) * Response :=
  let isRename := isRename moveReq in
  let sourceBase := filepath.Base (SourcePath moveReq) in
  let sourceDir := filepath.Dir (SourcePath moveReq) in
  let moveToRoot := moveToRoot moveReq in
  let isMove := isMove moveReq in
  let log0 :=
    (if moveToRoot
     then [LogMoveToRoot (SourcePath moveReq) (NewSlug moveReq)]
     else [])
    ++ [LogOperationAnalysis sourceBase sourceDir moveToRoot] in
  let documentDir :=
    filepath.Join [config.RootDir (config.Wiki cfg);
                   config.DocumentsDir (config.Wiki cfg)] in
  let fullSourcePath := filepath.Join [documentDir; SourcePath moveReq] in
  match os.Stat fs fullSourcePath with
  | inl err =>
      if os.IsNotExist err then
        (fs, log0,
         sendJSONResponse false "Source document or category not found"
                          http.StatusNotFound "" "")
      else
        (fs, log0,
         sendJSONResponse false
           ("Error accessing source: " +:+ os.Error err)
           http.StatusInternalServerError "" "")
  | inr _ =>
      let log1 :=
        log0 ++ [LogMoveRequest (SourcePath moveReq) (TargetPath moveReq)
                                (NewSlug moveReq);
                 LogOperationType isRename isMove] in
      match resolveNewPath moveReq isRename isMove with
      | None =>
          (fs, log1,
           sendJSONResponse false
             "Either new slug or target path must be provided"
             http.StatusBadRequest "" "")
      | Some newPath =>
          let fullTargetPath := filepath.Join [documentDir; newPath] in
          let log2 := log1 ++ [LogCalculatedPaths newPath fullTargetPath] in
          match detectConflict fs moveReq fullSourcePath fullTargetPath with
          | Some message =>
              (fs, log2,
               sendJSONResponse false message http.StatusConflict "" "")
          | None =>
              let targetDir := filepath.Dir fullTargetPath in
              match os.MkdirAll fs targetDir with
              | (fs1, Some err) =>
                  (fs1, log2,
                   sendJSONResponse false
                     ("Failed to create target directory: "
                      +:+ os.Error err)
                     http.StatusInternalServerError "" "")
              | (fs1, None) =>
                  let log3 :=
                    log2 ++ [LogMoving fullSourcePath fullTargetPath] in
                  if String.eqb fullSourcePath fullTargetPath then
                    (fs1, log3 ++ [LogSamePathWarning],
                     sendJSONResponse false
                       "Source and target paths are the same"
                       http.StatusBadRequest "" "")
                  else
                    match os.Rename fs1 fullSourcePath fullTargetPath with
                    | (fs2, Some err) =>
                        (fs2, log3 ++ [LogMoveError err],
                         sendJSONResponse false
                           ("Failed to move: " +:+ os.Error err)
                           http.StatusInternalServerError "" "")
                    | (fs2, None) =>
                        let '(fs3, log4, resp) :=
                          finishMove cfg moveReq newPath fs2 in
                        (fs3, log3 ++ log4, resp)
                    end
              end
          end
      end
  end.

(** [MoveDocumentHandler]. [body] is the outcome of decoding the body of
    the request as a [MoveRequest] ([None] when the decoder fails; a
    field that is absent is the empty string). The result is the file
    system left behind, the log and the answer. *)
Definition MoveDocumentHandler (r : http.Request)
    (body : option MoveRequest) (cfg : config.Config)
    (sessions : auth.Sessions) (fs : St)
  : St * list (LogEntry E) * Response :=
  if negb (String.eqb (http.Method r) http.MethodPost) then
    (fs, [], sendJSONResponse false "Method not allowed"
                              http.StatusMethodNotAllowed "" "")
  else
    match auth.GetSession r sessions with
    | None =>
        (fs, [],
         {| StatusCode := http.StatusUnauthorized;
            Payload :=
              {| Success := false;
                 Message := "Unauthorized. Admin or editor access required.";
                 NewPath := ""; OldPath := "" |} |})
    | Some session =>
        match body with
        | None =>
            (fs, [], sendJSONResponse false "Invalid request format"
                                      http.StatusBadRequest "" "")
        | Some moveReq =>
            if String.eqb (SourcePath moveReq) "" then
              (fs, [], sendJSONResponse false "Source path is required"
                                        http.StatusBadRequest "" "")
            else
              let moveReq := normalise moveReq in
              if String.eqb (TargetPath moveReq) ""
                 && String.eqb (NewSlug moveReq) "" then
                (fs, [],
                 sendJSONResponse false
                   "Either target path or new slug must be provided"
                   http.StatusBadRequest "" "")
              else if isHomeSource (SourcePath moveReq) then
                (fs, [],
                 sendJSONResponse false
                   "Cannot move or rename the home page"
                   http.StatusBadRequest "" "")
              else if isHomeTarget (TargetPath moveReq) then
                (fs, [],
                 sendJSONResponse false
                   "Cannot move or rename to the home page location"
                   http.StatusBadRequest "" "")
              else relocate cfg moveReq fs
        end
    end.

End Handler.

End handlers.

(** ** A file system in memory

    An instance of [os.FileSystem] to run the handler on: the list of the
    files and directories of a tree, each with its clean path and its kind.
    The root ["/"] and the working directory ["."] always exist. There are no
    permissions, links or devices, so a call fails only for the shape of the
    tree. A path is looked up as it is written; the handler passes results of
    [filepath.Join] and [filepath.Dir] only, which are clean. *)
Module memfs.

Inductive Node := File | Directory.

Inductive Errno := ENOENT | ENOTDIR | EEXIST | EINVAL | EBUSY.

(** [*os.PathError] and [*os.LinkError]: operation, path(s), cause. *)
Record PathError := { Op : string; Path : string; Err : Errno }.

Definition State := list (string * Node).

Definition isRoot (p : string) : bool := String.eqb p "/" || String.eqb p ".".

Fixpoint lookup (fs : State) (p : string) : option Node :=
  match fs with
  | [] => None
  | (k, n) :: rest => if String.eqb k p then Some n else lookup rest p
  end.

Definition remove (fs : State) (p : string) : State :=
  List.filter (fun kv => negb (String.eqb (fst kv) p)) fs.

Definition add (fs : State) (p : string) (n : Node) : State :=
  (p, n) :: remove fs p.

Definition node (fs : State) (p : string) : option Node :=
  if isRoot p then Some Directory else lookup fs p.

(** Whether the nearest ancestor of [p] that exists is a file. *)
Fixpoint throughFile (fuel : nat) (fs : State) (p : string) : bool :=
  match fuel with
  | 0 => false
  | S fuel =>
      let d := filepath.Dir p in
      if String.eqb d p then false
      else match node fs d with
           | Some File => true
           | Some Directory => false
           | None => throughFile fuel fs d
           end
  end.

(** The cause reported for a path that does not exist. *)
Definition missing (fs : State) (p : string) : Errno :=
  if throughFile (String.length p) fs p then ENOTDIR else ENOENT.

Definition Stat (fs : State) (p : string) : PathError + os.FileInfo :=
  match node fs p with
  | Some Directory => inr {| os.IsDir := true |}
  | Some File => inr {| os.IsDir := false |}
  | None => inl {| Op := "stat"; Path := p; Err := missing fs p |}
  end.

(** The entries of [p]: the paths one element below it. *)
Definition children (fs : State) (p : string) : list string :=
  List.map (fun kv => filepath.Base (fst kv))
    (List.filter
       (fun kv => String.eqb (filepath.Dir (fst kv)) p
                  && negb (isRoot (fst kv)))
       fs).

Definition ReadDir (fs : State) (p : string) : PathError + list string :=
  match node fs p with
  | Some Directory => inr (children fs p)
  | Some File => inl {| Op := "readdirent"; Path := p; Err := ENOTDIR |}
  | None => inl {| Op := "open"; Path := p; Err := missing fs p |}
  end.

(** [os.MkdirAll]: nothing to do for a directory; an error for a file;
    otherwise the parent is made first and then the directory. *)
Fixpoint mkdirAll (fuel : nat) (fs : State) (p : string)
  : State * option PathError :=
  match node fs p with
  | Some Directory => (fs, None)
  | Some File => (fs, Some {| Op := "mkdir"; Path := p; Err := ENOTDIR |})
  | None =>
      match fuel with
      | 0 => (fs, Some {| Op := "mkdir"; Path := p; Err := ENOENT |})
      | S fuel =>
          if String.eqb p "" then
            (fs, Some {| Op := "mkdir"; Path := p; Err := ENOENT |})
          else
            match mkdirAll fuel fs (filepath.Dir p) with
            | (fs1, Some err) => (fs1, Some err)
            | (fs1, None) => (add fs1 p Directory, None)
            end
      end
  end.

Definition MkdirAll (fs : State) (p : string) : State * option PathError :=
  mkdirAll (S (String.length p)) fs p.

(** [b] is [a] or lies below the directory [a]. *)
Definition within (a b : string) : bool :=
  String.eqb a b || strings.HasPrefix b (a +:+ "/").

(** The path [k] after the tree at [a] has moved to [b]. *)
Definition moved (a b k : string) : string :=
  if within a k
  then b +:+ String.substring (String.length a)
               (String.length k - String.length a) k
  else k.

(** [os.Rename]. Go refuses a new path that is a directory; the system call
    then refuses a source that does not exist, a new path whose parent is not
    a directory, and a directory moved below itself. A file at the new path
    is replaced. *)
Definition Rename (fs : State) (a b : string) : State * option PathError :=
  let fail e :=
    (fs, Some {| Op := "rename"; Path := a +:+ " " +:+ b; Err := e |}) in
  match node fs a, node fs b with
  | None, _ => fail (missing fs a)
  | Some _, Some Directory => fail EEXIST
  | Some na, nb =>
      if isRoot a then fail EBUSY
      else if String.eqb b "" then fail ENOENT
      else
        match node fs (filepath.Dir b) with
        | None => fail (missing fs b)
        | Some File => fail ENOTDIR
        | Some Directory =>
            match na, nb with
            | Directory, Some _ => fail ENOTDIR
            | Directory, None =>
                if within a b then fail EINVAL
                else (List.map (fun kv => (moved a b (fst kv), snd kv)) fs,
                      None)
            | File, _ => (add (remove fs a) b File, None)
            end
        end
  end.

Definition errnoText (e : Errno) : string :=
  match e with
  | ENOENT => "no such file or directory"
  | ENOTDIR => "not a directory"
  | EEXIST => "file exists"
  | EINVAL => "invalid argument"
  | EBUSY => "device or resource busy"
  end.

#[global] Instance fileSystem : os.FileSystem State PathError := {|
  os.Stat := Stat;
  os.ReadDir := ReadDir;
  os.MkdirAll := MkdirAll;
  os.Rename := Rename;
  os.IsNotExist e := match Err e with ENOENT => true | _ => false end;
  os.Error e := Op e +:+ " " +:+ Path e +:+ ": " +:+ errnoText (Err e)
|}.

(** A well-formed tree: every path is clean, none is a root, and the parent
    of each is a directory. *)
Definition wellFormed (fs : State) : bool :=
  List.forallb
    (fun kv =>
       String.eqb (filepath.Clean (fst kv)) (fst kv)
       && negb (isRoot (fst kv))
       && match node fs (filepath.Dir (fst kv)) with
          | Some Directory => true
          | _ => false
          end)
    fs.

(** The tree with these files, and the directories above them. *)
Definition ofFiles (files : list string) : State :=
  List.fold_left
    (fun fs f => add (fst (MkdirAll fs (filepath.Dir f))) f File)
    files [].

End memfs.

(** ** The specification's words: the planner (section 4.3) and the
    mirror of the secondary stores (section 4.5)

    For the planner a path is the list of its segments, the root being the
    empty list. *)
Module planner.

Inductive OperationKind := Rename | Move | MoveAndRename.

(** Steps 3 and 4: the kind of a request, or nothing to do. *)
Definition classify (isRename isMove : bool) : option OperationKind :=
  match isRename, isMove with
  | true, false => Some Rename
  | false, true => Some Move
  | true, true => Some MoveAndRename
  | false, false => None
  end.

(** Step 5: the segments of the resolved target. *)
Definition resolvedTarget (kind : OperationKind)
    (source target : list string) (newSlug : string) : list string :=
  match kind with
  | Rename => removelast source ++ [newSlug]
  | Move => target ++ [List.last source ""]
  | MoveAndRename => target ++ [newSlug]
  end.

(** The string of a path: its segments with the separator between them. *)
Definition pathOf (segments : list string) : string :=
  strings.Join segments "/".

(** A segment names a node: it is not empty, not [.] or [..], and has no
    separator in it. *)
Definition isSegment (s : string) : bool :=
  negb (String.eqb s "") && negb (String.eqb s ".")
  && negb (String.eqb s "..") && filepath.noSeparator s.

(** Section 4.5, one secondary store, in terms of the calls made to the
    file system. [before] and [after] are the states around the attempt
    and [warnings] is what it logs: a source that [Stat] does not find is
    skipped silently; otherwise the parent of the target is made with
    [MkdirAll] and the source is renamed to the target, and the failure of
    either call leaves the state that call left and is recorded as one
    warning. *)
Section SecondaryMirror.
Context {St E : Type} {FS : os.FileSystem St E}.


End SecondaryMirror.

End planner.

(** ** Sample data: a wiki, its sessions and some requests *)
Module sample.

(** The requests below are written in ASCII. *)
#[local] Existing Instance strings.asciiFolding.

Definition cfg : config.Config :=
  {| config.Wiki := {| config.RootDir := "data";
                       config.DocumentsDir := "documents";
                       config.Private := false |};
     config.Server := {| config.AllowInsecureCookies := false |} |}.

Definition privateCfg : config.Config :=
  {| config.Wiki := {| config.RootDir := "data";
                       config.DocumentsDir := "documents";
                       config.Private := true |};
     config.Server := {| config.AllowInsecureCookies := false |} |}.

(** Two documents with the same name up to case in two categories, a
    document at the top, and the history and comments of the first. *)
Definition tree : memfs.State :=
  memfs.ofFiles
    [ "data/documents/Projects/test/document.md";
      "data/documents/Other/Test/document.md";
      "data/documents/homepage/document.md";
      "data/versions/documents/Projects/test/20240101.md";
      "data/comments/Projects/test/1.md";
      "data/comments/Archive/test/2.md" ].

Definition sessions : auth.Sessions :=
  <["tok-viewer" := {| auth.Username := "vera"; auth.Role := "viewer";
                       auth.CreatedAt := 0 |}]>
    (<["tok-editor" := {| auth.Username := "alice"; auth.Role := "editor";
                          auth.CreatedAt := 0 |}]> ∅).

Definition tokenCookie (token : string) : http.Cookie :=
  {| http.Name := "session_token"; http.Value := token; http.Path := "/";
     http.HttpOnly := true; http.Secure := true;
     http.SameSiteStrict := true; http.MaxAge := 86400%Z |}.

Definition post (token : string) : http.Request :=
  {| http.Method := "POST"; http.Cookies := [tokenCookie token] |}.

Definition anonymousPost : http.Request :=
  {| http.Method := "POST"; http.Cookies := [] |}.

Definition move (source target slug : string) : handlers.MoveRequest :=
  {| handlers.SourcePath := source; handlers.TargetPath := target;
     handlers.NewSlug := slug |}.

(** The handler on the sample wiki, for an editor and for a viewer. *)
Definition asEditor (body : handlers.MoveRequest) :=
  handlers.MoveDocumentHandler (post "tok-editor") (Some body) cfg sessions
                               tree.

Definition asViewer (body : handlers.MoveRequest) :=
  handlers.MoveDocumentHandler (post "tok-viewer") (Some body) cfg sessions
                               tree.

End sample.

(** ** [internal/auth/auth.go]: the credentials

    [ValidateCredentials] reads the users of the configuration and calls
    [crypto.CheckPasswordHash], which is outside this development: the list
    of users and the check are parameters. *)
Module credentials.

(** [config.User], the fields that are read. *)
Record User := {
  Username : string;
  Password : string;
  Role : string
}.

Section Validate.
Variable CheckPasswordHash : string -> string -> bool.

(** [ValidateCredentials]: the loop over [cfg.Users] returns at the first
    user with that name whose hash the password passes. *)
Fixpoint ValidateCredentials (username password : string)
    (users : list User) : bool * string :=
  match users with
  | [] => (false, "")
  | user :: rest =>
      if String.eqb (Username user) username
         && CheckPasswordHash password (Password user)
      then (true, Role user)
      else ValidateCredentials username password rest
  end.

End Validate.

(** The comment of [RequireRole]: admin > editor > viewer. *)
Definition roleRank (role : string) : option nat :=
  if String.eqb role "admin" then Some 3
  else if String.eqb role "editor" then Some 2
  else if String.eqb role "viewer" then Some 1
  else None.

End credentials.

(** * Properties *)

(** ** The session store *)
Section SessionStore.
Implicit Types (r : http.Request) (sessions : auth.Sessions).

Lemma GetSession_no_cookie r sessions :
  http.Cookie_of r "session_token" = None ->
  auth.GetSession r sessions = None.
Proof. intros H. unfold auth.GetSession. now rewrite H. Qed.

Lemma GetSession_cookie r sessions c :
  http.Cookie_of r "session_token" = Some c ->
  auth.GetSession r sessions = sessions !! http.Value c.
Proof. intros H. unfold auth.GetSession. now rewrite H. Qed.

Lemma ClearSession_cookie r cfg sessions c :
  http.Cookie_of r "session_token" = Some c ->
  fst (auth.ClearSession r cfg sessions) = delete (http.Value c) sessions.
Proof. intros H. unfold auth.ClearSession. now rewrite H. Qed.

Lemma ClearSession_no_cookie r cfg sessions :
  http.Cookie_of r "session_token" = None ->
  auth.ClearSession r cfg sessions = (sessions, []).
Proof. intros H. unfold auth.ClearSession. now rewrite H. Qed.

(** Whatever the request, no session is found in the map once
    [ClearSession] has run for that request. *)
Lemma GetSession_after_clear r cfg sessions :
  auth.GetSession r (fst (auth.ClearSession r cfg sessions)) = None.
Proof.
  destruct (http.Cookie_of r "session_token") as [c|] eqn:Hc.
  - rewrite (ClearSession_cookie _ _ _ _ Hc), (GetSession_cookie _ _ _ Hc).
    apply lookup_delete_eq.
  - now apply GetSession_no_cookie.
Qed.

Lemma ClearSession_unknown r cfg sessions :
  auth.GetSession r sessions = None ->
  fst (auth.ClearSession r cfg sessions) = sessions.
Proof.
  intros H.
  destruct (http.Cookie_of r "session_token") as [c|] eqn:Hc.
  - rewrite (ClearSession_cookie _ _ _ _ Hc).
    rewrite (GetSession_cookie _ _ _ Hc) in H.
    now apply delete_id.
  - now rewrite ClearSession_no_cookie.
Qed.

(** C9. A session issued for a user and a role is found again under its
    token with that user and that role; after [ClearSession] for the token
    it is not found; a token that is not in the map gives no session, and
    clearing it leaves the map as it was, so that clearing twice is
    clearing once. *)
Theorem session_round_trip
    (entropy : string) (now : nat) (username role : string)
    (keepLoggedIn : bool) (cfg : config.Config) sessions r
    (c : http.Cookie) :
  http.Cookie_of r "session_token" = Some c ->
  http.Value c = base64.EncodeToString entropy ->
  let '(ok, issued, cookies) :=
    auth.CreateSession (Some entropy) now username role keepLoggedIn cfg
                       sessions in
  ok = true
  /\ List.map (fun k => (http.Name k, http.Value k)) cookies
     = [("session_token", http.Value c); ("session_user", username)]
  /\ (exists s, auth.GetSession r issued = Some s
                /\ auth.Username s = username /\ auth.Role s = role)
  /\ auth.GetSession r (fst (auth.ClearSession r cfg issued)) = None
  /\ (forall r' c' other,
        http.Cookie_of r' "session_token" = Some c' ->
        other !! http.Value c' = None ->
        auth.GetSession r' other = None)
  /\ (forall r' other,
        auth.GetSession r' other = None ->
        fst (auth.ClearSession r' cfg other) = other)
  /\ (forall r' other,
        fst (auth.ClearSession r' cfg (fst (auth.ClearSession r' cfg other)))
        = fst (auth.ClearSession r' cfg other)).
Proof.
  intros Hc Hv. unfold auth.CreateSession, auth.GenerateSessionToken.
  rewrite <- Hv. repeat split.
  - eexists. rewrite (GetSession_cookie _ _ _ Hc), lookup_insert_eq.
    repeat split.
  - apply GetSession_after_clear.
  - intros r' c' other Hc' Hnone. now rewrite (GetSession_cookie _ _ _ Hc').
  - intros r' other. apply ClearSession_unknown.
  - intros r' other. apply ClearSession_unknown, GetSession_after_clear.
Qed.

(** A failing entropy source gives an error and leaves the map alone. *)
Lemma CreateSession_no_entropy now username role keep cfg sessions :
  auth.CreateSession None now username role keep cfg sessions
  = (false, sessions, []).
Proof. reflexivity. Qed.

Lemma session_round_trip_witness :
  let r := sample.post "QUJD" in
  http.Cookie_of r "session_token" = Some (sample.tokenCookie "QUJD")
  /\ (exists s, auth.GetSession r
                  (<["QUJD" := {| auth.Username := "alice";
                                  auth.Role := "editor";
                                  auth.CreatedAt := 7 |}]> sample.sessions)
                = Some s
                /\ auth.Username s = "alice" /\ auth.Role s = "editor").
Proof.
  split; [reflexivity|].
  exact (proj1 (proj2 (proj2
    (session_round_trip "ABC" 7 "alice" "editor" false sample.cfg
       sample.sessions (sample.post "QUJD") (sample.tokenCookie "QUJD")
       eq_refl eq_refl)))).
Defined.

(** C10. On a wiki that is not private [RequireAuth] allows every request,
    whatever the session map holds; on a private wiki it allows exactly the
    requests that carry the token of a session. *)
Theorem RequireAuth_private_only r (cfg : config.Config) :
  (config.Private (config.Wiki cfg) = false ->
   forall sessions, auth.RequireAuth r cfg sessions = true)
  /\ (config.Private (config.Wiki cfg) = true ->
      forall sessions,
        auth.RequireAuth r cfg sessions = true
        <-> is_Some (auth.GetSession r sessions)).
Proof.
  unfold auth.RequireAuth. split; intros -> sessions; simpl.
  - reflexivity.
  - destruct (auth.GetSession r sessions); split; intros H;
      try reflexivity; try discriminate; eauto.
    now destruct H.
Qed.

Lemma RequireAuth_private_only_witness :
  auth.RequireAuth sample.anonymousPost sample.cfg sample.sessions = true
  /\ (auth.RequireAuth sample.anonymousPost sample.privateCfg sample.sessions
      = true
      <-> is_Some (auth.GetSession sample.anonymousPost sample.sessions)).
Proof.
  split.
  - exact (proj1 (RequireAuth_private_only sample.anonymousPost sample.cfg)
                 eq_refl sample.sessions).
  - exact (proj2 (RequireAuth_private_only sample.anonymousPost
                                           sample.privateCfg)
                 eq_refl sample.sessions).
Defined.

End SessionStore.

(** ** Path normalisation *)

(** C2. [cleanPath] is not idempotent on a path with a back-slash: the
    back-slashes become separators after the leading and trailing separators
    have been removed and the path has been cleaned, so a second pass has
    more to remove. A lone back-slash becomes a lone separator, which the
    second pass removes. *)
Theorem cleanPath_backslash_not_idempotent :
  handlers.cleanPath "\" = "/"
  /\ handlers.cleanPath (handlers.cleanPath "\") = ""
  /\ handlers.cleanPath (handlers.cleanPath "\")
     <> handlers.cleanPath "\"
  /\ handlers.cleanPath "a\\b" = "a//b"
  /\ handlers.cleanPath (handlers.cleanPath "a\\b") = "a/b".
Proof. vm_compute. repeat split; discriminate. Qed.

(** ** Paths made of segments *)
Section Segments.
Import planner.
Import filepath (noSeparator).
Implicit Types (s t p : string) (segs front target : list string).

Lemma append_nil (t : string) : "" +:+ t = t.
Proof. reflexivity. Qed.

Lemma append_cons c (s t : string) : String c s +:+ t = String c (s +:+ t).
Proof. reflexivity. Qed.

Lemma append_assoc (s t u : string) : (s +:+ t) +:+ u = s +:+ (t +:+ u).
Proof.
  induction s as [|c s IH]; [reflexivity|].
  now rewrite !append_cons, IH.
Qed.

Lemma append_empty (s t : string) : s +:+ t = "" -> s = "" /\ t = "".
Proof. destruct s; [now rewrite append_nil|]. rewrite append_cons. easy. Qed.

Lemma noSeparator_elements s :
  noSeparator s = true -> filepath.elements s = [s].
Proof.
  induction s as [|c s IH]; simpl; [easy|].
  intros [Hc Hs]%andb_true_iff. apply negb_true_iff in Hc.
  rewrite Hc, (IH Hs). reflexivity.
Qed.

Lemma elements_segment_then s t :
  noSeparator s = true ->
  filepath.elements (s +:+ String "/" t) = s :: filepath.elements t.
Proof.
  induction s as [|c s IH]; [easy|]. rewrite append_cons. simpl.
  intros [Hc Hs]%andb_true_iff. apply negb_true_iff in Hc.
  rewrite Hc, (IH Hs). reflexivity.
Qed.

Lemma pathOf_cons s segs :
  segs <> [] -> pathOf (s :: segs) = s +:+ String "/" (pathOf segs).
Proof. destruct segs; [easy|]. reflexivity. Qed.

Lemma pathOf_snoc segs s :
  segs <> [] -> pathOf (segs ++ [s]) = pathOf segs +:+ String "/" s.
Proof.
  induction segs as [|x segs IH]; [easy|]. intros _.
  destruct segs as [|y segs]; [reflexivity|].
  change ((x :: y :: segs) ++ [s]) with (x :: ((y :: segs) ++ [s])).
  rewrite pathOf_cons by (simpl; discriminate).
  rewrite IH by discriminate.
  rewrite (pathOf_cons x (y :: segs)) by discriminate.
  now rewrite append_assoc, append_cons.
Qed.

Lemma elements_pathOf_then segs t :
  segs <> [] -> Forall (fun s => noSeparator s = true) segs ->
  filepath.elements (pathOf segs +:+ String "/" t)
  = segs ++ filepath.elements t.
Proof.
  induction segs as [|x segs IH]; [easy|]. intros _ Hall.
  inversion Hall as [|? ? Hx Hsegs]; subst.
  destruct segs as [|y segs].
  - simpl. now apply elements_segment_then.
  - rewrite pathOf_cons by discriminate.
    rewrite append_assoc, append_cons.
    rewrite elements_segment_then by assumption.
    rewrite IH by (assumption || discriminate). reflexivity.
Qed.

Lemma elements_pathOf segs :
  segs <> [] -> Forall (fun s => noSeparator s = true) segs ->
  filepath.elements (pathOf segs) = segs.
Proof.
  intros Hne Hall.
  destruct (exists_last Hne) as (front & s & ->).
  apply Forall_app in Hall as [Hfront Hs]. inversion Hs; subst.
  destruct front as [|x front].
  - simpl. now apply noSeparator_elements.
  - rewrite pathOf_snoc by discriminate.
    rewrite elements_pathOf_then by (assumption || discriminate).
    now rewrite noSeparator_elements.
Qed.

Lemma isSegment_spec s :
  isSegment s = true ->
  s <> "" /\ s <> "." /\ s <> ".." /\ noSeparator s = true.
Proof.
  unfold isSegment. rewrite !andb_true_iff, !negb_true_iff, !String.eqb_neq.
  tauto.
Qed.

Lemma cleanStep_segment rooted out s :
  isSegment s = true -> filepath.cleanStep rooted out s = s :: out.
Proof.
  intros (H1 & H2 & H3 & _)%isSegment_spec. unfold filepath.cleanStep.
  apply String.eqb_neq in H1, H2, H3. now rewrite H1, H2, H3.
Qed.

Lemma cleanStep_segments rooted segs out :
  Forall (fun s => isSegment s = true) segs ->
  fold_left (filepath.cleanStep rooted) segs out = rev segs ++ out.
Proof.
  revert out. induction segs as [|s segs IH]; intros out Hall; [easy|].
  inversion Hall; subst. simpl.
  rewrite cleanStep_segment, IH by assumption.
  now rewrite <- app_assoc.
Qed.

Lemma segments_noSeparator segs :
  Forall (fun s => isSegment s = true) segs ->
  Forall (fun s => noSeparator s = true) segs.
Proof.
  induction 1 as [|s segs Hs _ IH]; constructor; [|exact IH].
  now apply isSegment_spec in Hs.
Qed.

(** The string of a non-empty path starts with a byte of its first segment. *)
Lemma pathOf_head s segs :
  isSegment s = true ->
  exists c r, pathOf (s :: segs) = String c r
              /\ filepath.IsPathSeparator c = false.
Proof.
  intros Hs. pose proof (isSegment_spec _ Hs) as (Hne & _ & _ & Hsep).
  destruct s as [|c s]; [easy|]. simpl in Hsep.
  apply andb_true_iff in Hsep as [Hc _]. apply negb_true_iff in Hc.
  destruct segs as [|y segs].
  - exists c, s. easy.
  - rewrite pathOf_cons by discriminate. rewrite append_cons. eauto.
Qed.

Lemma pathOf_relative s segs :
  isSegment s = true ->
  String.eqb (pathOf (s :: segs)) "" = false
  /\ filepath.rooted (pathOf (s :: segs)) = false.
Proof.
  intros Hs. destruct (pathOf_head s segs Hs) as (c & r & -> & Hc). easy.
Qed.

(** A path of segments is clean. *)
Lemma Clean_pathOf segs :
  segs <> [] -> Forall (fun s => isSegment s = true) segs ->
  filepath.Clean (pathOf segs) = pathOf segs.
Proof.
  intros Hne Hall. destruct segs as [|s segs]; [easy|].
  inversion Hall as [|? ? Hs Hsegs]; subst.
  destruct (pathOf_relative s segs Hs) as [Hempty Hrooted].
  unfold filepath.Clean. rewrite Hempty, Hrooted.
  rewrite elements_pathOf by (discriminate || now apply segments_noSeparator).
  rewrite cleanStep_segments, app_nil_r, rev_involutive by assumption.
  reflexivity.
Qed.

Lemma append_relative p t :
  String.eqb p "" = false -> filepath.rooted p = false ->
  String.eqb (p +:+ t) "" = false /\ filepath.rooted (p +:+ t) = false.
Proof. destruct p; [easy|]. rewrite append_cons. easy. Qed.

(** With a separator after it, too: the empty element is dropped. *)
Lemma Clean_pathOf_slash segs :
  segs <> [] -> Forall (fun s => isSegment s = true) segs ->
  filepath.Clean (pathOf segs +:+ "/") = pathOf segs.
Proof.
  intros Hne Hall. destruct segs as [|s segs]; [easy|].
  inversion Hall as [|? ? Hs Hsegs]; subst.
  destruct (pathOf_relative s segs Hs) as [Hempty Hrooted].
  destruct (append_relative _ "/" Hempty Hrooted) as [Hempty' Hrooted'].
  unfold filepath.Clean. rewrite Hempty', Hrooted'.
  rewrite elements_pathOf_then by (discriminate || now apply segments_noSeparator).
  rewrite fold_left_app, (cleanStep_segments _ (s :: segs)), app_nil_r
    by assumption.
  cbn [filepath.elements fold_left].
  change (filepath.cleanStep false (rev (s :: segs)) "")
    with (rev (s :: segs)).
  rewrite rev_involutive. reflexivity.
Qed.

(** *** [Dir], [Base] and [Join] on paths of segments *)

Lemma splitLast_noSeparator s :
  noSeparator s = true -> filepath.splitLast s = ("", s).
Proof.
  induction s as [|c s IH]; [easy|]. simpl.
  intros [Hc Hs]%andb_true_iff. apply negb_true_iff in Hc.
  now rewrite (IH Hs), Hc.
Qed.

Lemma splitLast_snoc p s :
  noSeparator s = true ->
  filepath.splitLast (p +:+ String "/" s) = (p +:+ "/", s).
Proof.
  intros Hs. induction p as [|c p IH].
  - rewrite !append_nil. simpl. now rewrite (splitLast_noSeparator _ Hs).
  - rewrite !append_cons. simpl. rewrite IH.
    destruct (p +:+ "/") eqn:Hp; [|reflexivity].
    now apply append_empty in Hp.
Qed.

Lemma stripTrailingSeps_noSeparator s :
  noSeparator s = true -> filepath.stripTrailingSeps s = s.
Proof.
  induction s as [|c s IH]; [easy|]. simpl.
  intros [Hc Hs]%andb_true_iff. apply negb_true_iff in Hc.
  now rewrite (IH Hs), Hc, andb_false_r.
Qed.

Lemma stripTrailingSeps_snoc p s :
  s <> "" -> noSeparator s = true ->
  filepath.stripTrailingSeps (p +:+ s) = p +:+ s.
Proof.
  intros Hne Hs. induction p as [|c p IH].
  - rewrite append_nil. now apply stripTrailingSeps_noSeparator.
  - rewrite append_cons. simpl. rewrite IH.
    destruct (p +:+ s) eqn:Hp; [|reflexivity].
    now apply append_empty in Hp.
Qed.

Lemma Dir_pathOf front s :
  Forall (fun x => isSegment x = true) front -> isSegment s = true ->
  filepath.Dir (pathOf (front ++ [s]))
  = match front with [] => "." | _ => pathOf front end.
Proof.
  intros Hfront (_ & _ & _ & Hs)%isSegment_spec. unfold filepath.Dir.
  destruct front as [|x front].
  - change (pathOf ([] ++ [s])) with s.
    now rewrite (splitLast_noSeparator _ Hs).
  - rewrite pathOf_snoc, splitLast_snoc by (assumption || discriminate).
    cbn [fst]. now apply Clean_pathOf_slash.
Qed.

Lemma Base_pathOf front s :
  isSegment s = true -> filepath.Base (pathOf (front ++ [s])) = s.
Proof.
  intros (Hne & _ & _ & Hs)%isSegment_spec. unfold filepath.Base.
  destruct front as [|x front].
  - change (pathOf ([] ++ [s])) with s.
    apply String.eqb_neq in Hne as Hne'. rewrite Hne'.
    rewrite stripTrailingSeps_noSeparator, splitLast_noSeparator by assumption.
    cbn [snd]. now rewrite Hne'.
  - rewrite pathOf_snoc by discriminate.
    destruct (String.eqb_spec (pathOf (x :: front) +:+ String "/" s) "")
      as [Hp|_]; [now apply append_empty in Hp|].
    change (String "/" s) with ("/" +:+ s). rewrite <- append_assoc.
    rewrite stripTrailingSeps_snoc by assumption.
    rewrite append_assoc. change ("/" +:+ s) with (String "/" s).
    rewrite splitLast_snoc by assumption. cbn [snd].
    apply String.eqb_neq in Hne. now rewrite Hne.
Qed.

Lemma Join_pathOf target s :
  Forall (fun x => isSegment x = true) target -> isSegment s = true ->
  filepath.Join [pathOf target; s] = pathOf (target ++ [s]).
Proof.
  intros Htarget Hs. destruct target as [|x target].
  - simpl pathOf. cbn [filepath.Join String.eqb].
    apply isSegment_spec in Hs as Hs'. destruct Hs' as (Hne & _).
    apply String.eqb_neq in Hne. rewrite Hne.
    change (strings.Join [s] "/") with (pathOf [s]).
    apply Clean_pathOf; [discriminate|now constructor].
  - inversion Htarget as [|? ? Hx _]; subst.
    destruct (pathOf_relative x target Hx) as [Hempty _].
    cbn [filepath.Join]. rewrite Hempty.
    change (strings.Join [pathOf (x :: target); s] "/")
      with (pathOf (x :: target) +:+ String "/" s).
    rewrite <- pathOf_snoc by discriminate.
    apply Clean_pathOf; [now destruct target|].
    apply Forall_app. split; [assumption|now constructor].
Qed.

Lemma pathOf_empty segs :
  Forall (fun x => isSegment x = true) segs ->
  String.eqb (pathOf segs) "" = match segs with [] => true | _ => false end.
Proof.
  intros Hall. destruct segs as [|x segs]; [reflexivity|].
  inversion Hall; subst. now apply pathOf_relative.
Qed.

Lemma pathOf_not_dot segs :
  segs <> [] -> Forall (fun x => isSegment x = true) segs ->
  String.eqb (pathOf segs) "." = false.
Proof.
  intros Hne Hall. destruct segs as [|x segs]; [easy|].
  inversion Hall as [|? ? Hx _]; subst.
  apply isSegment_spec in Hx as (Hx1 & Hx2 & _).
  apply String.eqb_neq. destruct segs as [|y segs]; [easy|].
  rewrite pathOf_cons by discriminate.
  destruct x as [|c x]; [easy|]. rewrite append_cons.
  intros [= -> Hrest]. now apply append_empty in Hrest.
Qed.

(** The new path of a request made of segments, for each kind. *)
Lemma resolveNewPath_segments
    (source target : list string) (newSlug : string) :
  source <> [] ->
  Forall (fun x => isSegment x = true) source ->
  Forall (fun x => isSegment x = true) target ->
  newSlug = "" \/ isSegment newSlug = true ->
  let moveReq :=
    {| handlers.SourcePath := pathOf source;
       handlers.TargetPath := pathOf target;
       handlers.NewSlug := newSlug |} in
  handlers.resolveNewPath moveReq (handlers.isRename moveReq)
                          (handlers.isMove moveReq)
  = match classify (handlers.isRename moveReq) (handlers.isMove moveReq) with
    | Some kind => Some (pathOf (resolvedTarget kind source target newSlug))
    | None => None
    end.
Proof.
  intros Hne Hsource Htarget Hslug moveReq.
  destruct (exists_last Hne) as (front & s & ->).
  apply Forall_app in Hsource as [Hfront Hs]. inversion Hs as [|? ? Hs' _]; subst.
  unfold handlers.resolveNewPath, handlers.isRename, handlers.isMove,
    handlers.moveToRoot, resolvedTarget. subst moveReq.
  cbn [handlers.SourcePath handlers.TargetPath handlers.NewSlug].
  rewrite removelast_last, last_last.
  rewrite Dir_pathOf, Base_pathOf, (pathOf_empty target) by assumption.
  assert (Hdot : String.eqb (match front with [] => "." | _ => pathOf front end)
                            "."
                 = match front with [] => true | _ => false end).
  { destruct front; [reflexivity|]. now apply pathOf_not_dot. }
  rewrite Hdot.
  destruct Hslug as [->|Hslug].
  - (* no new slug: a move or nothing *)
    change (String.eqb "" "") with true.
    destruct target as [|t target]; destruct front as [|f front];
      cbn [negb andb orb classify]; try reflexivity.
    + now rewrite Join_pathOf.
    + now rewrite Join_pathOf.
  - pose proof (isSegment_spec _ Hslug) as (Hnonempty%String.eqb_neq & _).
    rewrite Hnonempty.
    destruct target as [|t target]; destruct front as [|f front];
      cbn [negb andb orb classify]; try reflexivity.
    + change (filepath.Join [""; newSlug])
        with (filepath.Join [pathOf []; newSlug]).
      now rewrite Join_pathOf.
    + now rewrite Join_pathOf.
    + now rewrite Join_pathOf.
Qed.


End Segments.

(** ** [cleanPath] on paths without a back-slash *)
Section Normalisation.
Import planner.
Import filepath (noSeparator, isName, cleanStack).
Implicit Types (s t p e : string) (out segs : list string).
#[local] Arguments String.eqb : simpl never.

(** The elements of a path and the output of [Clean] *)

Lemma elements_noSeparator p :
  Forall (fun e => noSeparator e = true) (filepath.elements p).
Proof.
  induction p as [|c p IH]; simpl; [now repeat constructor|].
  destruct (filepath.IsPathSeparator c) eqn:Hc; [now constructor|].
  destruct (filepath.elements p) as [|e es].
  - constructor; [simpl; now rewrite Hc|constructor].
  - inversion IH; subst. constructor; [|assumption]. simpl. now rewrite Hc.
Qed.

Lemma isName_spec e :
  isName e = true <-> e <> "" /\ e <> "." /\ noSeparator e = true.
Proof.
  unfold isName. rewrite !andb_true_iff, !negb_true_iff, !String.eqb_neq.
  tauto.
Qed.

Lemma cleanStep_cleanStack rooted out e :
  cleanStack rooted out = true -> noSeparator e = true ->
  cleanStack rooted (filepath.cleanStep rooted out e) = true.
Proof.
  intros Hout He. unfold filepath.cleanStep.
  destruct (String.eqb_spec e "") as [->|Hne]; [assumption|].
  destruct (String.eqb_spec e ".") as [->|Hnd]; [assumption|].
  assert (Hname : isName e = true) by now apply isName_spec.
  destruct (String.eqb_spec e "..") as [->|Hndd].
  - destruct out as [|top rest].
    + destruct rooted; reflexivity.
    + destruct (String.eqb_spec top "..") as [->|Htop].
      * destruct rooted; [assumption|].
        simpl in Hout |- *. apply andb_true_iff in Hout as [Hdots Hrest].
        now rewrite Hdots, Hrest.
      * simpl in Hout. now apply andb_true_iff in Hout as [_ Hrest].
  - simpl. rewrite Hname, Hout.
    apply String.eqb_neq in Hndd. now rewrite Hndd.
Qed.

Lemma fold_cleanStep_cleanStack rooted es out :
  Forall (fun e => noSeparator e = true) es ->
  cleanStack rooted out = true ->
  cleanStack rooted (fold_left (filepath.cleanStep rooted) es out) = true.
Proof.
  revert out. induction es as [|e es IH]; intros out Hes Hout; [easy|].
  inversion Hes; subst. simpl. apply IH; [assumption|].
  now apply cleanStep_cleanStack.
Qed.

(** Processing the output of [Clean] again, as a relative path, gives it
    back. *)
Lemma fold_cleanStep_fixpoint out :
  cleanStack false out = true ->
  fold_left (filepath.cleanStep false) (rev out) [] = out.
Proof.
  induction out as [|e out IH]; [easy|]. simpl.
  intros [[Hname Hdots]%andb_true_iff Hout]%andb_true_iff.
  rewrite fold_left_app, (IH Hout). simpl.
  apply isName_spec in Hname as (Hne & Hnd & _).
  unfold filepath.cleanStep.
  apply String.eqb_neq in Hne, Hnd. rewrite Hne, Hnd.
  destruct (String.eqb_spec e "..") as [->|_]; [|reflexivity].
  destruct out as [|top rest]; [reflexivity|].
  simpl in Hdots. apply andb_true_iff in Hdots as [Htop _].
  rewrite String.eqb_sym in Htop. now rewrite Htop.
Qed.

Lemma cleanStack_rooted_relative out :
  cleanStack true out = true -> cleanStack false out = true.
Proof.
  induction out as [|e out IH]; [easy|]. simpl.
  intros [[Hname Hdots]%andb_true_iff Hout]%andb_true_iff.
  rewrite Hname, (IH Hout).
  destruct (String.eqb e ".."); [discriminate|reflexivity].
Qed.

Lemma cleanStack_names rooted out :
  cleanStack rooted out = true -> Forall (fun e => isName e = true) out.
Proof.
  induction out as [|e out IH]; [constructor|]. simpl.
  intros [[Hname _]%andb_true_iff Hout]%andb_true_iff.
  constructor; [assumption|now apply IH].
Qed.

(** *** Bytes that do not occur *)

Lemma ReplaceAll_absent s old new :
  strings.ContainsRune s old = false -> strings.ReplaceAll s old new = s.
Proof.
  induction s as [|c s IH]; [easy|]. simpl.
  intros [Hc Hs]%orb_false_iff. now rewrite Hc, (IH Hs).
Qed.

Lemma ContainsRune_append s t r :
  strings.ContainsRune (s +:+ t) r
  = strings.ContainsRune s r || strings.ContainsRune t r.
Proof.
  induction s as [|c s IH]; [reflexivity|].
  rewrite append_cons. simpl. now rewrite IH, orb_assoc.
Qed.

Lemma elements_absent p r :
  strings.ContainsRune p r = false ->
  Forall (fun e => strings.ContainsRune e r = false) (filepath.elements p).
Proof.
  induction p as [|c p IH]; simpl; [now repeat constructor|].
  intros [Hc Hp]%orb_false_iff. specialize (IH Hp).
  destruct (filepath.IsPathSeparator c); [now constructor|].
  destruct (filepath.elements p) as [|e es].
  - constructor; [simpl; now rewrite Hc|constructor].
  - inversion IH; subst. constructor; [|assumption]. simpl.
    now apply orb_false_iff.
Qed.

Lemma cleanStep_Forall (Q : string -> Prop) rooted out e :
  Forall Q out -> Q e -> Forall Q (filepath.cleanStep rooted out e).
Proof.
  intros Hout He. unfold filepath.cleanStep.
  destruct (String.eqb e ""); [assumption|].
  destruct (String.eqb e "."); [assumption|].
  destruct (String.eqb e "..").
  - destruct out as [|top rest]; [destruct rooted; now repeat constructor|].
    inversion Hout; subst.
    destruct (String.eqb top ".."); [|assumption].
    destruct rooted; [assumption|now constructor].
  - now constructor.
Qed.

Lemma fold_cleanStep_Forall (Q : string -> Prop) rooted es out :
  Forall Q es -> Forall Q out ->
  Forall Q (fold_left (filepath.cleanStep rooted) es out).
Proof.
  revert out. induction es as [|e es IH]; intros out Hes Hout; [easy|].
  inversion Hes; subst. simpl. apply IH; [assumption|].
  now apply cleanStep_Forall.
Qed.

Lemma pathOf_absent segs r :
  r <> "/"%char ->
  Forall (fun e => strings.ContainsRune e r = false) segs ->
  strings.ContainsRune (pathOf segs) r = false.
Proof.
  intros Hr. induction 1 as [|e segs He Hsegs IH]; [reflexivity|].
  destruct segs as [|e' segs]; [exact He|].
  rewrite pathOf_cons by discriminate.
  rewrite ContainsRune_append, He. cbn [strings.ContainsRune orb].
  rewrite IH. apply Ascii.eqb_neq in Hr. rewrite Ascii.eqb_sym in Hr.
  now rewrite Hr.
Qed.

(** *** Trimming *)

Lemma substring_all s : String.substring 0 (String.length s) s = s.
Proof. induction s as [|c s IH]; [reflexivity|]. simpl. now rewrite IH. Qed.

Lemma TrimPrefix_separator s : strings.TrimPrefix (String "/" s) "/" = s.
Proof.
  unfold strings.TrimPrefix, strings.HasPrefix. simpl.
  rewrite Nat.sub_0_r, substring_all. now destruct s.
Qed.

Lemma TrimPrefix_relative p :
  filepath.rooted p = false -> strings.TrimPrefix p "/" = p.
Proof.
  unfold strings.TrimPrefix, strings.HasPrefix.
  destruct p as [|c p]; [reflexivity|].
  cbn [filepath.rooted String.prefix]. intros Hc.
  destruct (ascii_dec "/" c) as [<-|_]; [|reflexivity].
  vm_compute in Hc. discriminate.
Qed.

Lemma HasSuffix_noSeparator s :
  noSeparator s = true -> strings.HasSuffix s "/" = false.
Proof.
  induction s as [|c s IH]; [reflexivity|]. simpl.
  intros [Hc Hs]%andb_true_iff. apply negb_true_iff in Hc.
  rewrite (IH Hs). unfold filepath.IsPathSeparator, filepath.Separator in Hc.
  destruct (String.eqb_spec (String c s) "/") as [[= -> _]|_]; [|reflexivity].
  now rewrite Ascii.eqb_refl in Hc.
Qed.

Lemma HasSuffix_name_last p s :
  s <> "" -> noSeparator s = true -> strings.HasSuffix (p +:+ s) "/" = false.
Proof.
  intros Hne Hs. induction p as [|c p IH].
  - rewrite append_nil. now apply HasSuffix_noSeparator.
  - rewrite append_cons. simpl. rewrite IH.
    destruct (String.eqb_spec (String c (p +:+ s)) "/") as [[= _ Hp]|_];
      [|reflexivity].
    now apply append_empty in Hp.
Qed.

Lemma TrimSuffix_names segs :
  Forall (fun e => isName e = true) segs ->
  strings.TrimSuffix (pathOf segs) "/" = pathOf segs.
Proof.
  intros Hall. unfold strings.TrimSuffix.
  enough (strings.HasSuffix (pathOf segs) "/" = false) as -> by reflexivity.
  destruct segs as [|x segs]; [reflexivity|].
  destruct (@exists_last _ (x :: segs)) as (front & s & Heq); [easy|].
  rewrite Heq in *. clear Heq.
  apply Forall_app in Hall as [_ Hs]. inversion Hs as [|? ? Hs' _]; subst.
  apply isName_spec in Hs' as (Hne & _ & Hsep).
  destruct front as [|y front].
  - now apply HasSuffix_noSeparator.
  - rewrite pathOf_snoc by discriminate.
    change (String "/" s) with ("/" +:+ s). rewrite <- append_assoc.
    now apply HasSuffix_name_last.
Qed.

(** *** A clean relative path is left as it is *)

Lemma pathOf_name_relative x segs :
  isName x = true ->
  String.eqb (pathOf (x :: segs)) "" = false
  /\ filepath.rooted (pathOf (x :: segs)) = false.
Proof.
  intros (Hne & _ & Hsep)%isName_spec.
  destruct x as [|c x]; [easy|]. cbn [noSeparator] in Hsep.
  apply andb_true_iff in Hsep as [Hc%negb_true_iff _].
  destruct segs as [|y segs]; [easy|].
  rewrite pathOf_cons by discriminate. now rewrite append_cons.
Qed.

Lemma names_noSeparator segs :
  Forall (fun e => isName e = true) segs ->
  Forall (fun e => noSeparator e = true) segs.
Proof.
  induction 1 as [|e segs He _ IH]; constructor; [|exact IH].
  now apply isName_spec in He.
Qed.

Lemma Clean_output segs :
  segs <> [] -> cleanStack false (rev segs) = true ->
  filepath.Clean (pathOf segs) = pathOf segs.
Proof.
  intros Hne Hstack.
  assert (Hnames : Forall (fun e => isName e = true) segs).
  { apply cleanStack_names in Hstack. apply Forall_rev in Hstack.
    now rewrite rev_involutive in Hstack. }
  destruct segs as [|x segs]; [easy|].
  inversion Hnames as [|? ? Hx _]; subst.
  destruct (pathOf_name_relative x segs Hx) as [Hempty Hrooted].
  unfold filepath.Clean. rewrite Hempty, Hrooted.
  rewrite elements_pathOf by (discriminate || now apply names_noSeparator).
  pose proof (fold_cleanStep_fixpoint _ Hstack) as Hfold.
  rewrite rev_involutive in Hfold. rewrite Hfold, rev_involutive.
  reflexivity.
Qed.

Lemma trim_output segs :
  Forall (fun e => isName e = true) segs ->
  Forall (fun e => strings.ContainsRune e "\" = false) segs ->
  strings.ReplaceAll
    (strings.TrimSuffix (strings.TrimPrefix (pathOf segs) "/") "/") "\" "/"
  = pathOf segs.
Proof.
  intros Hnames Habsent.
  assert (Hrel : filepath.rooted (pathOf segs) = false).
  { destruct segs as [|x segs]; [reflexivity|].
    inversion Hnames; subst. now apply pathOf_name_relative. }
  rewrite (TrimPrefix_relative _ Hrel), (TrimSuffix_names _ Hnames).
  apply ReplaceAll_absent, pathOf_absent; [discriminate|assumption].
Qed.

Lemma cleanPath_output segs :
  cleanStack false (rev segs) = true ->
  Forall (fun e => strings.ContainsRune e "\" = false) segs ->
  handlers.cleanPath (pathOf segs) = pathOf segs.
Proof.
  intros Hstack Habsent.
  assert (Hnames : Forall (fun e => isName e = true) segs).
  { apply cleanStack_names in Hstack. apply Forall_rev in Hstack.
    now rewrite rev_involutive in Hstack. }
  unfold handlers.cleanPath.
  destruct (String.eqb_spec (pathOf segs) "") as [->|Hne]; [reflexivity|].
  rewrite Clean_output; [now apply trim_output| |assumption].
  now intros ->.
Qed.

(** X10. Without a back-slash in the path, one pass of [cleanPath] is
    enough: normalising what has been normalised changes nothing. *)
Lemma cleanPath_idempotent_without_backslash p :
  strings.ContainsRune p "\" = false ->
  handlers.cleanPath (handlers.cleanPath p) = handlers.cleanPath p.
Proof.
  intros Habsent. unfold handlers.cleanPath at 2 3.
  destruct (String.eqb_spec p "") as [->|Hne]; [reflexivity|].
  unfold filepath.Clean. apply String.eqb_neq in Hne. rewrite Hne.
  pose proof (fold_cleanStep_cleanStack (filepath.rooted p) _ []
                (elements_noSeparator p) eq_refl) as Hstack.
  pose proof (fold_cleanStep_Forall _ (filepath.rooted p) _ []
                (elements_absent p "\" Habsent) (List.Forall_nil _)) as Hbs.
  set (st := fold_left _ _ _) in *.
  assert (Hnames : Forall (fun e => isName e = true) (rev st)).
  { apply Forall_rev. now apply cleanStack_names in Hstack. }
  apply Forall_rev in Hbs.
  assert (Hrel : cleanStack false (rev (rev st)) = true).
  { rewrite rev_involutive.
    destruct (filepath.rooted p); [now apply cleanStack_rooted_relative|easy]. }
  destruct (filepath.rooted p).
  - rewrite TrimPrefix_separator.
    change (strings.Join (rev st) "/") with (pathOf (rev st)).
    rewrite (TrimSuffix_names _ Hnames).
    rewrite ReplaceAll_absent by (apply pathOf_absent; [discriminate|assumption]).
    now apply cleanPath_output.
  - destruct (rev st) as [|x segs] eqn:Hout; [reflexivity|].
    change (strings.Join (x :: segs) "/") with (pathOf (x :: segs)).
    rewrite trim_output by assumption.
    now apply cleanPath_output.
Qed.

End Normalisation.

(** ** The handler, on any file system *)
Section HandlerFacts.
Context {CF : strings.CaseFolding} {St E : Type} {FS : os.FileSystem St E}.
Implicit Types (r : http.Request) (cfg : config.Config)
  (sessions : auth.Sessions) (fs : St) (moveReq : handlers.MoveRequest).

Lemma handler_not_post r body cfg sessions fs :
  http.Method r <> http.MethodPost ->
  handlers.MoveDocumentHandler r body cfg sessions fs
  = (fs, [], handlers.sendJSONResponse false "Method not allowed" 405 "" "").
Proof.
  intros H. unfold handlers.MoveDocumentHandler.
  destruct (String.eqb_spec (http.Method r) http.MethodPost); [easy|].
  reflexivity.
Qed.

(** A request without the token of a session is answered 401 and the file
    system is not touched. *)
Lemma handler_no_session r body cfg sessions fs :
  http.Method r = http.MethodPost ->
  auth.GetSession r sessions = None ->
  exists resp,
    handlers.MoveDocumentHandler r body cfg sessions fs = (fs, [], resp)
    /\ handlers.StatusCode resp = 401.
Proof.
  intros Hm Hs. unfold handlers.MoveDocumentHandler.
  rewrite Hm, Hs. simpl. eexists. split; reflexivity.
Qed.

(** Past the session check the role of the session is never read. *)
Lemma handler_ignores_role r body cfg sessions fs s1 s2 token :
  http.Method r = http.MethodPost ->
  http.Cookie_of r "session_token" = Some token ->
  handlers.MoveDocumentHandler r body cfg
    (<[http.Value token := s1]> sessions) fs
  = handlers.MoveDocumentHandler r body cfg
      (<[http.Value token := s2]> sessions) fs.
Proof.
  intros Hm Hc. unfold handlers.MoveDocumentHandler, auth.GetSession.
  rewrite Hm, Hc, !lookup_insert_eq. reflexivity.
Qed.

(** With a session and a decoded body, what is left of the handler. *)
Lemma handler_with_session r moveReq cfg sessions fs session :
  http.Method r = http.MethodPost ->
  auth.GetSession r sessions = Some session ->
  handlers.MoveDocumentHandler r (Some moveReq) cfg sessions fs
  = if String.eqb (handlers.SourcePath moveReq) "" then
      (fs, [], handlers.sendJSONResponse false "Source path is required"
                                         400 "" "")
    else if String.eqb (handlers.TargetPath (handlers.normalise moveReq)) ""
            && String.eqb (handlers.NewSlug moveReq) "" then
      (fs, [],
       handlers.sendJSONResponse false
         "Either target path or new slug must be provided" 400 "" "")
    else if handlers.isHomeSource (handlers.SourcePath (handlers.normalise moveReq))
    then
      (fs, [],
       handlers.sendJSONResponse false "Cannot move or rename the home page"
                                 400 "" "")
    else if handlers.isHomeTarget (handlers.TargetPath (handlers.normalise moveReq))
    then
      (fs, [],
       handlers.sendJSONResponse false
         "Cannot move or rename to the home page location" 400 "" "")
    else handlers.relocate cfg (handlers.normalise moveReq) fs.
Proof.
  intros Hm Hs. unfold handlers.MoveDocumentHandler.
  rewrite Hm, Hs. reflexivity.
Qed.

(** The guards of lines 60-87 where they apply. A request that passes the
    method, session and decoding checks is answered 400, with the file
    system untouched and nothing logged, whenever its source path is empty
    before or after normalisation, or is after normalisation the home path
    up to case or a path ending in [/homepage], or its target path is after
    normalisation the home path up to case; the other fields do not
    matter. *)
Theorem home_page_is_immovable r moveReq cfg sessions fs session :
  http.Method r = http.MethodPost ->
  auth.GetSession r sessions = Some session ->
  handlers.SourcePath moveReq = ""
  \/ handlers.cleanPath (handlers.SourcePath moveReq) = ""
  \/ strings.EqualFold (handlers.cleanPath (handlers.SourcePath moveReq))
                       "pages/home" = true
  \/ strings.HasSuffix (handlers.cleanPath (handlers.SourcePath moveReq))
                       "/homepage" = true
  \/ strings.EqualFold (handlers.cleanPath (handlers.TargetPath moveReq))
                       "pages/home" = true ->
  exists message,
    handlers.MoveDocumentHandler r (Some moveReq) cfg sessions fs
    = (fs, [], handlers.sendJSONResponse false message 400 "" "").
Proof.
  intros Hm Hs Hhome.
  rewrite (handler_with_session _ _ _ _ _ _ Hm Hs).
  destruct (String.eqb _ "") eqn:Hsrc; [eauto|].
  destruct (_ && _); [eauto|].
  destruct (handlers.isHomeSource _) eqn:Hhs; [eauto|].
  destruct (handlers.isHomeTarget _) eqn:Hht; [eauto|].
  exfalso. unfold handlers.isHomeSource, handlers.isHomeTarget in *.
  simpl in Hhs, Hht.
  apply orb_false_iff in Hhs as [Hhs Hsuf].
  apply orb_false_iff in Hhs as [Hhs Hfold].
  apply orb_false_iff in Hhs as [Hhs _].
  apply orb_false_iff in Hhs as [Hempty _].
  apply orb_false_iff in Hht as [_ Hht].
  destruct Hhome as [H1|[H1|[H1|[H1|H1]]]].
  - rewrite H1 in Hsrc. discriminate.
  - rewrite H1 in Hempty. discriminate.
  - congruence.
  - congruence.
  - congruence.
Qed.

(** A request with neither a target path nor a new slug is answered 400
    before the kind of operation is looked at, wherever its source lies. *)
Lemma nothing_to_do_is_rejected r moveReq cfg sessions fs session :
  http.Method r = http.MethodPost ->
  auth.GetSession r sessions = Some session ->
  handlers.cleanPath (handlers.TargetPath moveReq) = "" ->
  handlers.NewSlug moveReq = "" ->
  exists message,
    handlers.MoveDocumentHandler r (Some moveReq) cfg sessions fs
    = (fs, [], handlers.sendJSONResponse false message 400 "" "").
Proof.
  intros Hm Hs Ht Hn.
  rewrite (handler_with_session _ _ _ _ _ _ Hm Hs).
  destruct (String.eqb _ "") eqn:Hsrc; [eauto|].
  simpl. rewrite Ht, Hn. simpl. eauto.
Qed.

(** The tail of the handler always answers 200 with both paths. *)
Lemma finishMove_response cfg moveReq newPath fs :
  snd (handlers.finishMove cfg moveReq newPath fs)
  = handlers.sendJSONResponse true "Document moved successfully" 200 newPath
                              (handlers.SourcePath moveReq).
Proof.
  unfold handlers.finishMove.
  destruct (handlers.moveSecondary _ _ fs _ _) as [fs1 log1].
  destruct (handlers.moveSecondary _ _ fs1 _ _) as [fs2 log2].
  reflexivity.
Qed.

(** A document at the source and the same path for the target: the parent
    of the target is there already and [MkdirAll] has nothing to make. *)
Lemma MkdirAll_parent_of_existing fs p info :
  (forall q i, os.Stat fs q = inr i ->
     exists i', os.Stat fs (filepath.Dir q) = inr i' /\ os.IsDir i' = true) ->
  (forall d i, os.Stat fs d = inr i -> os.IsDir i = true ->
     os.MkdirAll fs d = (fs, None)) ->
  os.Stat fs p = inr info ->
  os.MkdirAll fs (filepath.Dir p) = (fs, None).
Proof.
  intros Htree Hmkdir Hp.
  destruct (Htree _ _ Hp) as (i' & Hd & Hdir). eauto.
Qed.

Lemma relocate_rejection_leaves_file_system cfg moveReq fs :
  (forall q i, os.Stat fs q = inr i ->
     exists i', os.Stat fs (filepath.Dir q) = inr i' /\ os.IsDir i' = true) ->
  (forall d i, os.Stat fs d = inr i -> os.IsDir i = true ->
     os.MkdirAll fs d = (fs, None)) ->
  let '(fs', _, resp) := handlers.relocate cfg moveReq fs in
  400 <= handlers.StatusCode resp < 500 -> fs' = fs.
Proof.
  intros Htree Hmkdir. unfold handlers.relocate.
  set (documentDir := filepath.Join [config.RootDir (config.Wiki cfg);
                                     config.DocumentsDir (config.Wiki cfg)]).
  set (fullSourcePath :=
         filepath.Join [documentDir; handlers.SourcePath moveReq]).
  destruct (os.Stat fs fullSourcePath) as [err|info] eqn:Hstat.
  { destruct (os.IsNotExist err); reflexivity. }
  destruct (handlers.resolveNewPath _ _ _) as [newPath|]; [|reflexivity].
  set (fullTargetPath := filepath.Join [documentDir; newPath]).
  destruct (handlers.detectConflict _ _ _ _); [reflexivity|].
  destruct (os.MkdirAll fs _) as [fs1 [err|]] eqn:Hmk.
  { simpl. unfold http.StatusInternalServerError. lia. }
  destruct (String.eqb_spec fullSourcePath fullTargetPath) as [Heq|Hne].
  { intros _. rewrite <- Heq in Hmk.
    rewrite (MkdirAll_parent_of_existing _ _ _ Htree Hmkdir Hstat) in Hmk.
    congruence. }
  destruct (os.Rename fs1 _ _) as [fs2 [err|]].
  { simpl. unfold http.StatusInternalServerError. lia. }
  pose proof (finishMove_response cfg moveReq newPath fs2) as Hresp.
  destruct (handlers.finishMove cfg moveReq newPath fs2) as [[fs3 log4] resp].
  simpl in Hresp. subst resp. simpl. unfold http.StatusOK. lia.
Qed.

(** C4. On a file system that is a tree (what exists has a directory for
    parent) and where [MkdirAll] of a directory that exists does nothing, a
    request answered with a status from 400 to 499, so a validation error,
    the same-path guard included, or a conflict, leaves the file system as it
    was before the call. *)
Theorem rejected_request_leaves_file_system r body cfg sessions fs :
  (forall q i, os.Stat fs q = inr i ->
     exists i', os.Stat fs (filepath.Dir q) = inr i' /\ os.IsDir i' = true) ->
  (forall d i, os.Stat fs d = inr i -> os.IsDir i = true ->
     os.MkdirAll fs d = (fs, None)) ->
  let '(fs', _, resp) :=
    handlers.MoveDocumentHandler r body cfg sessions fs in
  400 <= handlers.StatusCode resp < 500 -> fs' = fs.
Proof.
  intros Htree Hmkdir.
  destruct (String.eqb_spec (http.Method r) http.MethodPost) as [Hm|Hm].
  2: { rewrite (handler_not_post _ _ _ _ _ Hm). reflexivity. }
  destruct (auth.GetSession r sessions) as [session|] eqn:Hs.
  2: { destruct (handler_no_session r body cfg sessions fs Hm Hs)
         as (resp & -> & _). reflexivity. }
  destruct body as [moveReq|].
  2: { unfold handlers.MoveDocumentHandler. rewrite Hm, Hs. simpl.
       reflexivity. }
  rewrite (handler_with_session _ _ _ _ _ _ Hm Hs).
  destruct (String.eqb _ ""); [reflexivity|].
  destruct (_ && _); [reflexivity|].
  destruct (handlers.isHomeSource _); [reflexivity|].
  destruct (handlers.isHomeTarget _); [reflexivity|].
  apply relocate_rejection_leaves_file_system; assumption.
Qed.

(** *** Conflicts *)

(** A document at the target, in the directory of the source, is a conflict
    whatever the names are. *)
Lemma same_parent_is_conflict fs moveReq fullSourcePath fullTargetPath info :
  os.Stat fs (filepath.Join [fullTargetPath; "document.md"]) = inr info ->
  fullTargetPath <> fullSourcePath ->
  filepath.Dir fullSourcePath = filepath.Dir fullTargetPath ->
  handlers.detectConflict fs moveReq fullSourcePath fullTargetPath
  = Some "A document already exists at the target location".
Proof.
  intros Hdoc Hne Hdir. unfold handlers.detectConflict.
  destruct (String.eqb_spec fullTargetPath fullSourcePath); [easy|].
  cbn [negb]. rewrite Hdoc, Hdir, String.eqb_refl, orb_true_r. reflexivity.
Qed.

(** Where the directory of a document can be read and lists the document, a
    document at the target is a conflict in every case: what the first check
    lets through, the second one stops. *)
Lemma document_at_target_is_conflict
    fs moveReq fullSourcePath fullTargetPath info entries :
  os.Stat fs (filepath.Join [fullTargetPath; "document.md"]) = inr info ->
  os.Stat fs fullTargetPath = inr {| os.IsDir := true |} ->
  os.ReadDir fs fullTargetPath = inr entries ->
  entries <> [] ->
  fullTargetPath <> fullSourcePath ->
  exists message,
    handlers.detectConflict fs moveReq fullSourcePath fullTargetPath
    = Some message.
Proof.
  intros Hdoc Hdir Hread Hentries Hne. unfold handlers.detectConflict.
  destruct (String.eqb_spec fullTargetPath fullSourcePath); [easy|].
  cbn [negb]. rewrite Hdoc, Hdir, Hread. cbn [os.IsDir].
  destruct (_ || _); [eauto|].
  destruct entries; [easy|]. cbn [List.length Nat.ltb Nat.leb]. eauto.
Qed.

(** A conflict is answered 409, with the file system as it was. *)
Lemma conflict_is_answered_409 cfg moveReq fs info newPath message :
  let documentDir :=
    filepath.Join [config.RootDir (config.Wiki cfg);
                   config.DocumentsDir (config.Wiki cfg)] in
  let fullSourcePath :=
    filepath.Join [documentDir; handlers.SourcePath moveReq] in
  let fullTargetPath := filepath.Join [documentDir; newPath] in
  os.Stat fs fullSourcePath = inr info ->
  handlers.resolveNewPath moveReq (handlers.isRename moveReq)
                          (handlers.isMove moveReq) = Some newPath ->
  handlers.detectConflict fs moveReq fullSourcePath fullTargetPath
  = Some message ->
  exists log,
    handlers.relocate cfg moveReq fs
    = (fs, log, handlers.sendJSONResponse false message 409 "" "").
Proof.
  intros documentDir fullSourcePath fullTargetPath Hstat Hnew Hconflict.
  unfold handlers.relocate. fold documentDir. fold fullSourcePath.
  rewrite Hstat, Hnew. fold fullTargetPath. rewrite Hconflict. eauto.
Qed.

(** *** The secondary directories *)



End HandlerFacts.

(** ** The answer 200 carries the path of the planner *)
Section PlannedRelocation.
Context {CF : strings.CaseFolding} {St E : Type} {FS : os.FileSystem St E}.
Import planner.

Lemma sendJSONResponse_paths success message code newPath oldPath :
  handlers.sendJSONResponse success message code newPath oldPath
  = {| handlers.StatusCode := code;
       handlers.Payload := {| handlers.Success := success;
                              handlers.Message := message;
                              handlers.NewPath := newPath;
                              handlers.OldPath := oldPath |} |}.
Proof.
  unfold handlers.sendJSONResponse.
  destruct (String.eqb_spec newPath "") as [->|_];
    destruct (String.eqb_spec oldPath "") as [->|_]; reflexivity.
Qed.

(** A request is answered 200 only from the end of the handler, with the new
    path computed for the normalised request. *)
Lemma handler_success (r : http.Request) body cfg sessions (fs : St) :
  let '(_, _, resp) := handlers.MoveDocumentHandler r body cfg sessions fs in
  handlers.StatusCode resp = 200 ->
  exists moveReq newPath,
    body = Some moveReq
    /\ handlers.resolveNewPath (handlers.normalise moveReq)
         (handlers.isRename (handlers.normalise moveReq))
         (handlers.isMove (handlers.normalise moveReq)) = Some newPath
    /\ resp = handlers.sendJSONResponse true "Document moved successfully"
                200 newPath (handlers.SourcePath (handlers.normalise moveReq)).
Proof.
  destruct (String.eqb_spec (http.Method r) http.MethodPost) as [Hm|Hm].
  2: { rewrite (handler_not_post _ _ _ _ _ Hm). discriminate. }
  destruct (auth.GetSession r sessions) as [session|] eqn:Hs.
  2: { destruct (handler_no_session r body cfg sessions fs Hm Hs)
         as (resp & -> & Hcode). rewrite Hcode. discriminate. }
  destruct body as [moveReq|].
  2: { unfold handlers.MoveDocumentHandler. rewrite Hm, Hs. discriminate. }
  rewrite (handler_with_session _ _ _ _ _ _ Hm Hs).
  destruct (String.eqb _ ""); [discriminate|].
  destruct (_ && _); [discriminate|].
  destruct (handlers.isHomeSource _); [discriminate|].
  destruct (handlers.isHomeTarget _); [discriminate|].
  unfold handlers.relocate.
  destruct (os.Stat fs _) as [err|info].
  { destruct (os.IsNotExist err); discriminate. }
  destruct (handlers.resolveNewPath _ _ _) as [newPath|] eqn:Hnew;
    [|discriminate].
  destruct (handlers.detectConflict _ _ _ _); [discriminate|].
  destruct (os.MkdirAll fs _) as [fs1 [err|]]; [discriminate|].
  destruct (String.eqb _ _); [discriminate|].
  destruct (os.Rename fs1 _ _) as [fs2 [err|]]; [discriminate|].
  pose proof (finishMove_response cfg (handlers.normalise moveReq) newPath fs2)
    as Hresp.
  destruct (handlers.finishMove _ _ _ fs2) as [[fs3 log4] resp].
  cbn [snd] in Hresp. subst resp. intros _.
  exists moveReq, newPath. auto.
Qed.

Lemma segments_cleanStack segs :
  Forall (fun e => isSegment e = true) segs ->
  filepath.cleanStack false (rev segs) = true.
Proof.
  intros Hall. apply Forall_rev in Hall.
  induction Hall as [|e out He _ IH]; [reflexivity|].
  apply isSegment_spec in He as (H1 & H2 & H3 & H4).
  cbn [filepath.cleanStack]. rewrite IH.
  assert (filepath.isName e = true) as -> by now apply isName_spec.
  apply String.eqb_neq in H3. now rewrite H3.
Qed.

(** A path of segments without back-slash is already normal. *)
Lemma cleanPath_segments segs :
  Forall (fun e => isSegment e = true) segs ->
  Forall (fun e => strings.ContainsRune e "\" = false) segs ->
  handlers.cleanPath (pathOf segs) = pathOf segs.
Proof.
  intros Hall Habsent. apply cleanPath_output; [|assumption].
  now apply segments_cleanStack.
Qed.

(** X19. At the end of the handler: what the answer 200 announces for a
    request made of segments is the path of the planner, and the old path
    is the source as it was sent. *)
Lemma relocated_path_follows_plan
    (r : http.Request) cfg sessions (fs : St)
    (source target : list string) (newSlug : string) :
  source <> [] ->
  Forall (fun e => isSegment e = true) source ->
  Forall (fun e => isSegment e = true) target ->
  newSlug = "" \/ isSegment newSlug = true ->
  Forall (fun e => strings.ContainsRune e "\" = false) (source ++ target) ->
  let moveReq :=
    {| handlers.SourcePath := pathOf source;
       handlers.TargetPath := pathOf target;
       handlers.NewSlug := newSlug |} in
  let '(_, _, resp) :=
    handlers.MoveDocumentHandler r (Some moveReq) cfg sessions fs in
  handlers.StatusCode resp = 200 ->
  exists kind,
    classify (handlers.isRename moveReq) (handlers.isMove moveReq) = Some kind
    /\ handlers.NewPath (handlers.Payload resp)
       = pathOf (resolvedTarget kind source target newSlug)
    /\ handlers.OldPath (handlers.Payload resp) = pathOf source.
Proof.
  intros Hne Hsource Htarget Hslug [Hbs Hbt]%Forall_app moveReq.
  pose proof (handler_success r (Some moveReq) cfg sessions fs) as Hok.
  assert (Hnorm : handlers.normalise moveReq = moveReq).
  { unfold handlers.normalise, moveReq.
    cbn [handlers.SourcePath handlers.TargetPath handlers.NewSlug].
    now rewrite !cleanPath_segments. }
  destruct (handlers.MoveDocumentHandler _ _ _ _ _) as [[fs' log] resp].
  intros Hcode. destruct (Hok Hcode) as (moveReq' & newPath & [= <-] & Hnew & ->).
  rewrite Hnorm in Hnew. rewrite Hnorm, sendJSONResponse_paths.
  cbn [handlers.Payload handlers.NewPath handlers.OldPath].
  pose proof (resolveNewPath_segments source target newSlug
                Hne Hsource Htarget Hslug) as Hplan.
  cbv zeta in Hplan. fold moveReq in Hplan. rewrite Hplan in Hnew.
  destruct (classify _ _) as [kind|]; [|discriminate].
  exists kind. injection Hnew as <-. repeat split.
Qed.

End PlannedRelocation.

(** ** The handler on the sample wiki *)
Section OnTheSampleWiki.
#[local] Existing Instance strings.asciiFolding.

(** C1. A session of role viewer passes the only check the handler makes,
    that there is a session: the request of a viewer to move a document is
    answered 200 and the document is moved, although [RequireRole] refuses
    the viewer the role of editor and the message of the 401 answer asks for
    an admin or an editor. *)
Theorem viewer_session_relocates :
  auth.RequireRole (sample.post "tok-viewer") "editor" sample.sessions = false
  /\ let '(fs, _, resp) :=
       sample.asViewer (sample.move "Projects/test" "Archive" "") in
     handlers.StatusCode resp = 200
     /\ handlers.Success (handlers.Payload resp) = true
     /\ handlers.NewPath (handlers.Payload resp) = "Archive/test"
     /\ memfs.node sample.tree "data/documents/Projects/test/document.md"
        = Some memfs.File
     /\ memfs.node fs "data/documents/Projects/test/document.md" = None
     /\ memfs.node fs "data/documents/Archive/test/document.md"
        = Some memfs.File.
Proof. vm_compute. repeat split. Qed.

(** C3, the second case at work. The document [Projects/test] is moved to
    the category [Other] under the name [Test], where a document exists: the
    names differ by case only and the parents differ, so the check for a
    document at the target lets the request through; the check that follows
    finds the target directory not empty (it holds that document) and the
    request is answered 409. *)
Theorem case_only_move_across_parents_conflicts :
  let moveReq := handlers.normalise (sample.move "Projects/test" "Other" "Test") in
  let fullSourcePath := "data/documents/Projects/test" in
  let fullTargetPath := "data/documents/Other/Test" in
  memfs.Stat sample.tree (filepath.Join [fullTargetPath; "document.md"])
  = inr {| os.IsDir := false |}
  /\ strings.ToLower (filepath.Base (handlers.SourcePath moveReq))
     = strings.ToLower (handlers.NewSlug moveReq)
  /\ filepath.Base (handlers.SourcePath moveReq) <> handlers.NewSlug moveReq
  /\ filepath.Dir fullSourcePath <> filepath.Dir fullTargetPath
  /\ handlers.detectConflict sample.tree moveReq fullSourcePath fullTargetPath
     = Some "Target directory already exists and is not empty"
  /\ sample.asEditor (sample.move "Projects/test" "Other" "Test")
     = (sample.tree,
        [ handlers.LogOperationAnalysis "test" "Projects" false;
          handlers.LogMoveRequest "Projects/test" "Other" "Test";
          handlers.LogOperationType true true;
          handlers.LogCalculatedPaths "Other/Test" fullTargetPath ],
        handlers.sendJSONResponse false
          "Target directory already exists and is not empty" 409 "" "").
Proof. vm_compute. repeat split; discriminate. Qed.

(** C5. The guard of lines 76-78, under the comment that the home page
    is not to be moved, looks for [/homepage] at the end of the normalised
    source: the separator is part of what it looks for. A source below a
    category that ends with the segment [homepage] is refused with 400,
    whether it exists or not. The document [homepage] at the top of the
    tree ends with the same segment and has no separator before it: the
    guard does not see it, and the document is renamed with 200. So it is
    when the request names it [/homepage]: normalisation has removed the
    separator before the guard runs. *)
Theorem homepage_at_top_is_relocated :
  filepath.Base (handlers.cleanPath "homepage") = "homepage"
  /\ handlers.isHomeSource (handlers.cleanPath "homepage") = false
  /\ strings.HasSuffix "/homepage" "/homepage" = true
  /\ handlers.cleanPath "/homepage" = "homepage"
  /\ (let '(fs, _, resp) :=
        sample.asEditor (sample.move "homepage" "" "start") in
      handlers.StatusCode resp = 200
      /\ handlers.StatusCode resp <> 400
      /\ memfs.node fs "data/documents/homepage/document.md" = None
      /\ memfs.node fs "data/documents/start/document.md" = Some memfs.File)
  /\ (let '(fs, _, resp) :=
        sample.asEditor (sample.move "/homepage" "" "start") in
      handlers.StatusCode resp = 200
      /\ handlers.StatusCode resp <> 400
      /\ memfs.node fs "data/documents/homepage/document.md" = None
      /\ memfs.node fs "data/documents/start/document.md" = Some memfs.File)
  /\ filepath.Base (handlers.cleanPath "Projects/homepage") = "homepage"
  /\ sample.asEditor (sample.move "Projects/homepage" "" "start")
     = (sample.tree, [],
        handlers.sendJSONResponse false
          "Cannot move or rename the home page" 400 "" "").
Proof. vm_compute. repeat split; discriminate. Qed.

(** C6. A document below a category, with neither a target path nor a new
    slug: the kind of operation computed from the request is a move (to the
    root), and the branch for a move alone would place the document at the
    root under its own name; the handler has answered 400 before, at the
    check that one of the two fields is given. *)
Theorem move_to_root_alone_is_rejected :
  let moveReq := handlers.normalise (sample.move "Projects/test" "" "") in
  handlers.moveToRoot moveReq = true
  /\ handlers.isMove moveReq = true
  /\ handlers.isRename moveReq = false
  /\ handlers.resolveNewPath moveReq (handlers.isRename moveReq)
                             (handlers.isMove moveReq) = Some "test"
  /\ sample.asEditor (sample.move "Projects/test" "" "")
     = (sample.tree, [],
        handlers.sendJSONResponse false
          "Either target path or new slug must be provided" 400 "" "").
Proof. vm_compute. repeat split. Qed.

End OnTheSampleWiki.

(** ** The file system in memory is a tree *)

Lemma memfs_lookup_In (fs : memfs.State) p n :
  memfs.lookup fs p = Some n -> In (p, n) fs.
Proof.
  induction fs as [|[k m] fs IH]; simpl; [easy|].
  destruct (String.eqb_spec k p) as [->|_].
  - intros [= ->]. now left.
  - intros H. right. now apply IH.
Qed.

Lemma memfs_Stat_node (fs : memfs.State) p info :
  memfs.Stat fs p = inr info ->
  exists n, memfs.node fs p = Some n
            /\ os.IsDir info = match n with
                               | memfs.Directory => true
                               | memfs.File => false
                               end.
Proof.
  unfold memfs.Stat. destruct (memfs.node fs p) as [[]|]; [| |easy];
    intros [= <-]; eauto.
Qed.

(** In a well-formed tree what exists has a directory for parent. *)
Lemma memfs_parent_is_directory (fs : memfs.State) :
  memfs.wellFormed fs = true ->
  forall q i, os.Stat fs q = inr i ->
    exists i', os.Stat fs (filepath.Dir q) = inr i' /\ os.IsDir i' = true.
Proof.
  intros Hwf q i Hq. exists {| os.IsDir := true |}. split; [|reflexivity].
  apply memfs_Stat_node in Hq as (n & Hn & _).
  cbn [os.Stat memfs.fileSystem]. unfold memfs.Stat.
  enough (memfs.node fs (filepath.Dir q) = Some memfs.Directory) as ->
      by reflexivity.
  unfold memfs.node in Hn. destruct (memfs.isRoot q) eqn:Hroot.
  - unfold memfs.isRoot in Hroot. apply orb_true_iff in Hroot.
    destruct Hroot as [->%String.eqb_eq | ->%String.eqb_eq]; reflexivity.
  - apply memfs_lookup_In in Hn. unfold memfs.wellFormed in Hwf.
    rewrite forallb_forall in Hwf. specialize (Hwf _ Hn). cbn [fst] in Hwf.
    apply andb_true_iff in Hwf as [_ Hparent].
    destruct (memfs.node fs (filepath.Dir q)) as [[]|]; easy.
Qed.

(** [MkdirAll] of a directory that exists does nothing. *)
Lemma memfs_MkdirAll_existing (fs : memfs.State) :
  forall d i, os.Stat fs d = inr i -> os.IsDir i = true ->
    os.MkdirAll fs d = (fs, None).
Proof.
  intros d i Hd Hdir. apply memfs_Stat_node in Hd as (n & Hn & Hi).
  rewrite Hdir in Hi. destruct n; [easy|].
  cbn [os.MkdirAll memfs.fileSystem]. unfold memfs.MkdirAll.
  cbn [memfs.mkdirAll]. now rewrite Hn.
Qed.

(** Where a document exists, its directory exists and is not empty. *)
Lemma memfs_directory_of_document (fs : memfs.State) dir :
  memfs.wellFormed fs = true ->
  filepath.Dir (filepath.Join [dir; "document.md"]) = dir ->
  memfs.isRoot (filepath.Join [dir; "document.md"]) = false ->
  forall info,
    os.Stat fs (filepath.Join [dir; "document.md"]) = inr info ->
    os.Stat fs dir = inr {| os.IsDir := true |}
    /\ exists entries, os.ReadDir fs dir = inr entries /\ entries <> [].
Proof.
  intros Hwf Hdir Hroot info Hdoc.
  destruct (memfs_parent_is_directory fs Hwf _ _ Hdoc) as (i' & Hparent & Hi').
  rewrite Hdir in Hparent. destruct i' as [b]. cbn in Hi'. subst b.
  split; [exact Hparent|].
  apply memfs_Stat_node in Hparent as (n & Hn & Hkind).
  destruct n; [easy|].
  cbn [os.ReadDir memfs.fileSystem]. unfold memfs.ReadDir. rewrite Hn.
  eexists. split; [reflexivity|].
  apply memfs_Stat_node in Hdoc as (m & Hm & _).
  unfold memfs.node in Hm. rewrite Hroot in Hm.
  apply memfs_lookup_In in Hm. unfold memfs.children.
  intros Hnil. apply map_eq_nil in Hnil.
  assert (Hin : In (filepath.Join [dir; "document.md"], m)
                   (List.filter
                      (fun kv => String.eqb (filepath.Dir (fst kv)) dir
                                 && negb (memfs.isRoot (fst kv))) fs)).
  { apply filter_In. split; [exact Hm|]. cbn [fst].
    now rewrite Hdir, String.eqb_refl, Hroot. }
  rewrite Hnil in Hin. destruct Hin.
Qed.

(** ** Instances on the sample wiki *)
Section Instances.
#[local] Existing Instance strings.asciiFolding.

Lemma sample_tree_wellFormed : memfs.wellFormed sample.tree = true.
Proof. vm_compute. reflexivity. Qed.

Lemma home_page_is_immovable_witness :
  exists message,
    sample.asEditor (sample.move "Wiki/homepage/" "Archive" "start")
    = (sample.tree, [], handlers.sendJSONResponse false message 400 "" "").
Proof.
  apply (home_page_is_immovable (sample.post "tok-editor")
           (sample.move "Wiki/homepage/" "Archive" "start") sample.cfg
           sample.sessions sample.tree
           {| auth.Username := "alice"; auth.Role := "editor";
              auth.CreatedAt := 0 |});
    [reflexivity | reflexivity |].
  right. right. right. left. reflexivity.
Defined.

(** The request that names the place where the document is: the parent is
    asked for with [MkdirAll] before the same-path guard answers 400. *)
Lemma rejected_request_leaves_file_system_witness :
  let '(fs, log, resp) :=
    sample.asEditor (sample.move "Projects/test" "Projects" "test") in
  handlers.StatusCode resp = 400
  /\ List.last log handlers.LogSamePathWarning = handlers.LogSamePathWarning
  /\ fs = sample.tree.
Proof.
  pose proof (rejected_request_leaves_file_system
                (sample.post "tok-editor")
                (Some (sample.move "Projects/test" "Projects" "test"))
                sample.cfg sample.sessions sample.tree
                (memfs_parent_is_directory _ sample_tree_wellFormed)
                (memfs_MkdirAll_existing _)) as H.
  unfold sample.asEditor.
  destruct (handlers.MoveDocumentHandler _ _ _ _ _) as [[fs log] resp] eqn:Hrun.
  vm_compute in Hrun.
  injection Hrun as Hfs Hlog Hresp. subst log resp.
  split; [reflexivity|]. split; [reflexivity|].
  apply H. cbn. lia.
Defined.



End Instances.

(** * Further properties *)

(** ** Roles and sessions *)
Section Roles.
Implicit Types (r : http.Request) (sessions : auth.Sessions).

Lemma RequireRole_rank r required sessions :
  auth.RequireRole r required sessions
  = match auth.GetSession r sessions with
    | None => false
    | Some session =>
        match credentials.roleRank (auth.Role session),
              credentials.roleRank required with
        | Some have, Some need => Nat.leb need have
        | _, _ => false
        end
    end.
Proof.
  unfold auth.RequireRole, credentials.roleRank.
  destruct (auth.GetSession r sessions) as [session|]; [|reflexivity].
  destruct (String.eqb required "admin"), (String.eqb required "editor"),
    (String.eqb required "viewer"), (String.eqb (auth.Role session) "admin"),
    (String.eqb (auth.Role session) "editor"),
    (String.eqb (auth.Role session) "viewer"); reflexivity.
Qed.

(** X1. [RequireRole] follows the order admin > editor > viewer: it is true
    exactly when the request carries the token of a session whose role is
    one of the three and is at least the required one, itself one of the
    three. A role or a requirement spelled otherwise gives false. *)
Theorem RequireRole_follows_hierarchy r required sessions :
  auth.RequireRole r required sessions = true
  <-> exists session have need,
        auth.GetSession r sessions = Some session
        /\ credentials.roleRank (auth.Role session) = Some have
        /\ credentials.roleRank required = Some need
        /\ need <= have.
Proof.
  rewrite RequireRole_rank. split.
  - destruct (auth.GetSession r sessions) as [session|]; [|discriminate].
    destruct (credentials.roleRank (auth.Role session)) as [have|] eqn:Hhave;
      [|discriminate].
    destruct (credentials.roleRank required) as [need|]; [|discriminate].
    intros Hle%Nat.leb_le. exists session, have, need. auto.
  - intros (session & have & need & -> & -> & -> & Hle).
    now apply Nat.leb_le.
Qed.

Lemma RequireRole_session r required sessions :
  auth.RequireRole r required sessions = true ->
  is_Some (auth.GetSession r sessions).
Proof.
  rewrite RequireRole_rank.
  destruct (auth.GetSession r sessions); [eauto|discriminate].
Qed.

(** X2. Whoever passes [RequireRole], for any role, passes [RequireAuth],
    on a private wiki as on a public one. *)
Theorem RequireRole_implies_RequireAuth r required cfg sessions :
  auth.RequireRole r required sessions = true ->
  auth.RequireAuth r cfg sessions = true.
Proof.
  intros [session Hs]%RequireRole_session. unfold auth.RequireAuth.
  rewrite Hs. now destruct (negb _).
Qed.

Lemma RequireRole_implies_RequireAuth_witness :
  auth.RequireRole (sample.post "tok-editor") "viewer" sample.sessions = true
  /\ auth.RequireAuth (sample.post "tok-editor") sample.privateCfg
                      sample.sessions = true.
Proof.
  split; [reflexivity|].
  exact (RequireRole_implies_RequireAuth (sample.post "tok-editor") "viewer"
           sample.privateCfg sample.sessions eq_refl).
Defined.

(** X3. [CreateSession] touches one key of the map, the new token: the
    session under any other token is what it was. When the entropy source
    fails, the map is left as it is and no cookie is set. *)
Theorem CreateSession_keeps_other_sessions
    (entropy : option string) now username role keepLoggedIn cfg sessions :
  let '(ok, issued, cookies) :=
    auth.CreateSession entropy now username role keepLoggedIn cfg sessions in
  (forall token,
     auth.GenerateSessionToken entropy <> Some token ->
     issued !! token = sessions !! token)
  /\ (ok = false -> entropy = None /\ issued = sessions /\ cookies = [])
  /\ (ok = true ->
      exists token,
        auth.GenerateSessionToken entropy = Some token
        /\ issued !! token
           = Some {| auth.Username := username; auth.Role := role;
                     auth.CreatedAt := now |}).
Proof.
  unfold auth.CreateSession.
  destruct entropy as [b|]; cbn [auth.GenerateSessionToken].
  - split; [|split]; [|discriminate|].
    + intros token Hne. apply lookup_insert_ne. congruence.
    + intros _. eexists. split; [reflexivity|]. apply lookup_insert_eq.
  - split; [|split]; [reflexivity|easy|discriminate].
Qed.

Lemma CreateSession_keeps_other_sessions_witness :
  snd (fst (auth.CreateSession (Some "ABC") 7 "bob" "admin" false sample.cfg
                               sample.sessions)) !! "tok-editor"
  = sample.sessions !! "tok-editor".
Proof.
  pose proof (CreateSession_keeps_other_sessions (Some "ABC") 7 "bob" "admin"
                false sample.cfg sample.sessions) as H.
  destruct (auth.CreateSession _ _ _ _ _ _ _) as [[ok issued] cookies].
  apply (proj1 H). discriminate.
Defined.

(** X4. [ClearSession] removes the session of the token the request carries
    and no other; for a request without the cookie it changes nothing and
    sets no cookie, and with the cookie it sets the two cookies again, empty
    and expired. *)
Theorem ClearSession_keeps_other_sessions r cfg sessions :
  let '(remaining, cookies) := auth.ClearSession r cfg sessions in
  (forall token,
     (forall c, http.Cookie_of r "session_token" = Some c ->
                http.Value c <> token) ->
     remaining !! token = sessions !! token)
  /\ (http.Cookie_of r "session_token" = None ->
      remaining = sessions /\ cookies = [])
  /\ (forall c, http.Cookie_of r "session_token" = Some c ->
        remaining !! http.Value c = None
        /\ List.map (fun k => (http.Name k, http.Value k, http.MaxAge k))
                    cookies
           = [("session_token", "", (-1)%Z); ("session_user", "", (-1)%Z)]).
Proof.
  unfold auth.ClearSession.
  destruct (http.Cookie_of r "session_token") as [c|].
  - split; [|split]; [|discriminate|].
    + intros token Hne. apply lookup_delete_ne. now apply Hne.
    + intros c' [= <-]. split; [apply lookup_delete_eq|reflexivity].
  - split; [|split]; [reflexivity|easy|discriminate].
Qed.

Lemma ClearSession_keeps_other_sessions_witness :
  fst (auth.ClearSession (sample.post "tok-viewer") sample.cfg sample.sessions)
    !! "tok-editor"
  = sample.sessions !! "tok-editor".
Proof.
  pose proof (ClearSession_keeps_other_sessions (sample.post "tok-viewer")
                sample.cfg sample.sessions) as H.
  destruct (auth.ClearSession _ _ _) as [remaining cookies].
  apply (proj1 H). intros c [= <-]. discriminate.
Defined.

(** X5. A session as it is issued gives its holder the roles up to its own:
    for a request with the new token, [RequireRole] is true exactly for the
    requirements at or below the role the session was created with. *)
Theorem issued_session_grants_its_role
    (entropy : string) now username role keepLoggedIn cfg sessions r c
    required :
  http.Cookie_of r "session_token" = Some c ->
  http.Value c = base64.EncodeToString entropy ->
  let issued :=
    snd (fst (auth.CreateSession (Some entropy) now username role
                                 keepLoggedIn cfg sessions)) in
  auth.RequireRole r required issued = true
  <-> exists have need,
        credentials.roleRank role = Some have
        /\ credentials.roleRank required = Some need
        /\ need <= have.
Proof.
  intros Hc Hv issued. rewrite RequireRole_rank.
  unfold auth.GetSession. rewrite Hc, Hv. subst issued.
  unfold auth.CreateSession. cbn [auth.GenerateSessionToken fst snd].
  rewrite lookup_insert_eq. cbn [auth.Role].
  destruct (credentials.roleRank role) as [have|];
    destruct (credentials.roleRank required) as [need|]; split;
    try discriminate; try (intros (? & ? & [= <-] & [= <-] & ?));
    try (intros (? & ? & ? & ? & ?); discriminate).
  - intros Hle%Nat.leb_le. eauto.
  - now apply Nat.leb_le.
Qed.

Lemma issued_session_grants_its_role_witness :
  let issued :=
    snd (fst (auth.CreateSession (Some "ABC") 7 "bob" "editor" false
                                 sample.cfg sample.sessions)) in
  auth.RequireRole (sample.post "QUJD") "viewer" issued = true
  /\ auth.RequireRole (sample.post "QUJD") "admin" issued = false.
Proof.
  pose proof (fun required =>
                issued_session_grants_its_role "ABC" 7 "bob" "editor" false
                  sample.cfg sample.sessions (sample.post "QUJD")
                  (sample.tokenCookie "QUJD") required eq_refl eq_refl) as H.
  split.
  - apply (H "viewer"). exists 2, 1. repeat split. lia.
  - reflexivity.
Defined.

End Roles.

(** ** Session tokens *)
Section Tokens.

Lemma digit_position (n : N) :
  String.index 0 (String (base64.digit n) "") base64.encodeURL
  = Some (N.to_nat (n mod 64)).
Proof.
  unfold base64.digit.
  assert (Hlt : N.to_nat (n mod 64) < 64).
  { pose proof (N.mod_lt n 64). lia. }
  generalize dependent (N.to_nat (n mod 64)). intros k Hk.
  do 64 (destruct k as [|k]; [reflexivity|]). lia.
Qed.

Lemma digit_inj (n m : N) :
  base64.digit n = base64.digit m -> (n mod 64 = m mod 64)%N.
Proof.
  intros H. pose proof (digit_position n) as Hn.
  rewrite H, digit_position in Hn. injection Hn as Hn. lia.
Qed.

Lemma digit_in_alphabet (n : N) :
  strings.ContainsRune base64.encodeURL (base64.digit n) = true.
Proof.
  unfold base64.digit.
  assert (Hlt : N.to_nat (n mod 64) < 64).
  { pose proof (N.mod_lt n 64). lia. }
  generalize dependent (N.to_nat (n mod 64)). intros k Hk.
  do 64 (destruct k as [|k]; [reflexivity|]). lia.
Qed.

Lemma digit_not_padding (n : N) : base64.digit n <> "="%char.
Proof.
  intros H. pose proof (digit_in_alphabet n) as Hin.
  rewrite H in Hin. discriminate.
Qed.

(** Three properties at once of a string and of the same string with one
    and with two bytes before it: the encoder reads three bytes at a time. *)
Lemma by_three_bytes (P : string -> Prop) :
  P "" -> (forall x, P (String x "")) -> (forall x y, P (String x (String y ""))) ->
  (forall x y z b, P b -> P (String x (String y (String z b)))) ->
  forall b, P b.
Proof.
  intros H0 H1 H2 H3 b.
  enough (P b /\ (forall x, P (String x b))
          /\ (forall x y, P (String x (String y b)))) by tauto.
  induction b as [|c b (IH0 & IH1 & IH2)]; [auto|].
  split; [apply IH1|]. split; [intros x; apply IH2|].
  intros x y. now apply H3.
Qed.

Lemma EncodeToString_length b :
  String.length (base64.EncodeToString b) = 4 * ((String.length b + 2) / 3).
Proof.
  induction b as [| | |x y z b IH] using by_three_bytes; try reflexivity.
  cbn [base64.EncodeToString String.length]. rewrite IH.
  replace (S (S (S (String.length b))) + 2) with (String.length b + 2 + 1 * 3)
    by lia.
  rewrite Nat.div_add by lia. lia.
Qed.

Lemma EncodeToString_alphabet b c :
  strings.ContainsRune (base64.EncodeToString b) c = true ->
  strings.ContainsRune (base64.encodeURL +:+ "=") c = true.
Proof.
  assert (Hdigit : forall n, Ascii.eqb (base64.digit n) c = true ->
            strings.ContainsRune (base64.encodeURL +:+ "=") c = true).
  { intros n <-%Ascii.eqb_eq. rewrite ContainsRune_append.
    now rewrite digit_in_alphabet. }
  assert (Hpad : Ascii.eqb "=" c = true ->
            strings.ContainsRune (base64.encodeURL +:+ "=") c = true).
  { intros <-%Ascii.eqb_eq. reflexivity. }
  induction b as [| | |x y z b IH] using by_three_bytes;
    cbn [base64.EncodeToString strings.ContainsRune]; intros H;
    repeat (apply orb_true_iff in H as [H|H]); eauto; discriminate.
Qed.

(** A number below 2^24 is the sum of its four digits in base 64. *)
Lemma sextets (n : N) :
  (n < 16777216)%N ->
  (n = (n / 262144) mod 64 * 262144 + (n / 4096) mod 64 * 4096
       + (n / 64) mod 64 * 64 + n mod 64)%N.
Proof.
  intros Hn.
  rewrite (N.mod_small (n / 262144) 64)
    by (apply N.Div0.div_lt_upper_bound; lia).
  replace (n / 4096)%N with (n / 64 / 64)%N
    by (rewrite N.Div0.div_div; reflexivity).
  replace (n / 262144)%N with (n / 64 / 64 / 64)%N
    by (rewrite !N.Div0.div_div; reflexivity).
  pose proof (N.div_mod n 64 ltac:(lia)) as H1.
  pose proof (N.div_mod (n / 64) 64 ltac:(lia)) as H2.
  pose proof (N.div_mod (n / 64 / 64) 64 ltac:(lia)) as H3.
  lia.
Qed.

Lemma number_of_digits (n n' : N) :
  (n < 16777216)%N -> (n' < 16777216)%N ->
  base64.digit (n / 262144) = base64.digit (n' / 262144) ->
  base64.digit (n / 4096) = base64.digit (n' / 4096) ->
  ((n / 64) mod 64 = (n' / 64) mod 64)%N ->
  (n mod 64 = n' mod 64)%N ->
  n = n'.
Proof.
  intros Hn Hn' H1%digit_inj H2%digit_inj H3 H4.
  rewrite (sextets n), (sextets n') by assumption.
  now rewrite H1, H2, H3, H4.
Qed.

Lemma N_of_ascii_inj (x x' : ascii) : N_of_ascii x = N_of_ascii x' -> x = x'.
Proof.
  intros H. rewrite <- (ascii_N_embedding x), <- (ascii_N_embedding x').
  now rewrite H.
Qed.

(** The bytes of a group are read back from its digits: a group of one byte
    from its two digits, of two bytes from its three, of three from its
    four. *)
Lemma one_byte_inj (x x' : ascii) :
  let n := (N_of_ascii x * 65536)%N in
  let n' := (N_of_ascii x' * 65536)%N in
  base64.digit (n / 262144) = base64.digit (n' / 262144) ->
  base64.digit (n / 4096) = base64.digit (n' / 4096) ->
  x = x'.
Proof.
  intros n n' H1 H2.
  pose proof (N_ascii_bounded x). pose proof (N_ascii_bounded x').
  assert (Hlow : forall a : N, ((a * 65536 / 64) mod 64 = 0
                               /\ (a * 65536) mod 64 = 0)%N).
  { intros a. split.
    - replace (a * 65536)%N with (a * 1024 * 64)%N by lia.
      rewrite N.div_mul by lia.
      replace (a * 1024)%N with (a * 16 * 64)%N by lia.
      apply N.Div0.mod_mul.
    - replace (a * 65536)%N with (a * 1024 * 64)%N by lia.
      apply N.Div0.mod_mul. }
  assert (Hn : n = n').
  { apply number_of_digits; try assumption; subst n n'; try lia.
    - now rewrite (proj1 (Hlow _)), (proj1 (Hlow _)).
    - now rewrite (proj2 (Hlow _)), (proj2 (Hlow _)). }
  apply N_of_ascii_inj. subst n n'. lia.
Qed.

Lemma two_bytes_inj (x y x' y' : ascii) :
  let n := (N_of_ascii x * 65536 + N_of_ascii y * 256)%N in
  let n' := (N_of_ascii x' * 65536 + N_of_ascii y' * 256)%N in
  base64.digit (n / 262144) = base64.digit (n' / 262144) ->
  base64.digit (n / 4096) = base64.digit (n' / 4096) ->
  base64.digit (n / 64) = base64.digit (n' / 64) ->
  x = x' /\ y = y'.
Proof.
  intros n n' H1 H2 H3%digit_inj.
  pose proof (N_ascii_bounded x). pose proof (N_ascii_bounded x').
  pose proof (N_ascii_bounded y). pose proof (N_ascii_bounded y').
  assert (Hlow : forall a b : N, ((a * 65536 + b * 256) mod 64 = 0)%N).
  { intros a b.
    replace (a * 65536 + b * 256)%N with ((a * 1024 + b * 4) * 64)%N by lia.
    apply N.Div0.mod_mul. }
  assert (Hn : n = n').
  { apply number_of_digits; try assumption; subst n n'; try lia.
    now rewrite !Hlow. }
  split; apply N_of_ascii_inj; subst n n'; lia.
Qed.

Lemma three_bytes_inj (x y z x' y' z' : ascii) :
  let n := (N_of_ascii x * 65536 + N_of_ascii y * 256 + N_of_ascii z)%N in
  let n' := (N_of_ascii x' * 65536 + N_of_ascii y' * 256 + N_of_ascii z')%N in
  base64.digit (n / 262144) = base64.digit (n' / 262144) ->
  base64.digit (n / 4096) = base64.digit (n' / 4096) ->
  base64.digit (n / 64) = base64.digit (n' / 64) ->
  base64.digit n = base64.digit n' ->
  x = x' /\ y = y' /\ z = z'.
Proof.
  intros n n' H1 H2 H3%digit_inj H4%digit_inj.
  pose proof (N_ascii_bounded x). pose proof (N_ascii_bounded y).
  pose proof (N_ascii_bounded z). pose proof (N_ascii_bounded x').
  pose proof (N_ascii_bounded y'). pose proof (N_ascii_bounded z').
  assert (Hn : n = n')
    by (apply number_of_digits; try assumption; subst n n'; lia).
  repeat split; apply N_of_ascii_inj; subst n n'; lia.
Qed.

Lemma EncodeToString_inj b1 b2 :
  base64.EncodeToString b1 = base64.EncodeToString b2 -> b1 = b2.
Proof.
  revert b2.
  induction b1 as [|x|x y|x y z b1 IH] using by_three_bytes; intros b2;
    destruct b2 as [|x' [|y' [|z' b2]]];
    cbn [base64.EncodeToString]; intros H; try discriminate H;
    try reflexivity; injection H; intros;
    try match goal with
        | E : base64.digit _ = "="%char |- _ =>
            now apply digit_not_padding in E
        | E : "="%char = base64.digit _ |- _ =>
            symmetry in E; now apply digit_not_padding in E
        end.
  - f_equal. now apply one_byte_inj.
  - destruct (two_bytes_inj x y x' y') as [-> ->]; auto.
  - destruct (three_bytes_inj x y z x' y' z') as (-> & -> & ->); auto.
    f_equal. f_equal. f_equal. now apply IH.
Qed.

(** X6. The token made from the bytes of the entropy source has four
    characters for every three bytes, the last group padded: 44 characters
    for the 32 bytes the code reads; and every character of it is a letter,
    a digit, [-], [_] or the padding [=], so that it can be the value of a
    cookie as it is. *)
Theorem session_token_shape (entropy token : string) :
  auth.GenerateSessionToken (Some entropy) = Some token ->
  String.length token = 4 * ((String.length entropy + 2) / 3)
  /\ (String.length entropy = 32 -> String.length token = 44)
  /\ (forall c, strings.ContainsRune token c = true ->
                strings.ContainsRune (base64.encodeURL +:+ "=") c = true).
Proof.
  intros [= <-]. split; [apply EncodeToString_length|]. split.
  - intros H. now rewrite EncodeToString_length, H.
  - apply EncodeToString_alphabet.
Qed.

Lemma session_token_shape_witness :
  String.length "QUJD" = 4
  /\ strings.ContainsRune (base64.encodeURL +:+ "=") "Q" = true.
Proof.
  pose proof (session_token_shape "ABC" "QUJD" eq_refl) as (Hlen & _ & Hin).
  split; [exact Hlen|]. apply Hin. reflexivity.
Defined.

(** X7. Tokens are the same only when the bytes of the entropy source are:
    so a login does not take the place of an earlier one unless the source
    repeats itself. After two logins on different entropy both sessions are
    in the map, each under its token. *)
Theorem distinct_entropy_distinct_sessions
    (e1 e2 : string) now1 now2 user1 user2 role1 role2 keep1 keep2 cfg
    (sessions : auth.Sessions) :
  e1 <> e2 ->
  let first :=
    snd (fst (auth.CreateSession (Some e1) now1 user1 role1 keep1 cfg
                                 sessions)) in
  let second :=
    snd (fst (auth.CreateSession (Some e2) now2 user2 role2 keep2 cfg first)) in
  auth.GenerateSessionToken (Some e1) <> auth.GenerateSessionToken (Some e2)
  /\ second !! base64.EncodeToString e1
     = Some {| auth.Username := user1; auth.Role := role1;
               auth.CreatedAt := now1 |}
  /\ second !! base64.EncodeToString e2
     = Some {| auth.Username := user2; auth.Role := role2;
               auth.CreatedAt := now2 |}.
Proof.
  intros Hne first second.
  assert (Htokens : base64.EncodeToString e2 <> base64.EncodeToString e1).
  { intros H. apply Hne. symmetry. now apply EncodeToString_inj. }
  split; [|split].
  - cbn [auth.GenerateSessionToken]. congruence.
  - subst second first. unfold auth.CreateSession.
    cbn [auth.GenerateSessionToken fst snd].
    rewrite lookup_insert_ne by assumption. apply lookup_insert_eq.
  - subst second. unfold auth.CreateSession.
    cbn [auth.GenerateSessionToken fst snd]. apply lookup_insert_eq.
Qed.

Lemma distinct_entropy_distinct_sessions_witness :
  auth.GenerateSessionToken (Some "ABC") <> auth.GenerateSessionToken (Some "ABD").
Proof.
  exact (proj1 (distinct_entropy_distinct_sessions "ABC" "ABD" 1 2 "alice"
                  "bob" "editor" "viewer" false true sample.cfg
                  sample.sessions ltac:(discriminate))).
Defined.

End Tokens.

(** ** Credentials *)
Section Credentials.
Variable CheckPasswordHash : string -> string -> bool.

(** X8. [ValidateCredentials] accepts exactly when some user of the list
    has the name given and a hash that the password passes, and the role it
    returns is the role of the first such user; when it refuses, the role is
    empty. A name is compared byte for byte. *)
Theorem ValidateCredentials_first_match
    (username password : string) (users : list credentials.User) :
  let accepts user :=
    String.eqb (credentials.Username user) username
    && CheckPasswordHash password (credentials.Password user) in
  let result :=
    credentials.ValidateCredentials CheckPasswordHash username password users in
  (forall role,
     result = (true, role)
     <-> exists before user after,
           users = before ++ user :: after
           /\ Forall (fun u => accepts u = false) before
           /\ accepts user = true
           /\ credentials.Role user = role)
  /\ (fst result = false <-> Forall (fun u => accepts u = false) users)
  /\ (fst result = false -> snd result = "").
Proof.
  intros accepts result. subst result.
  induction users as [|u users (IHrole & IHfalse & IHempty)].
  - split; [|split].
    + intros role. split; [discriminate|].
      intros (before & user & after & H & _). now destruct before.
    + split; [constructor|reflexivity].
    + reflexivity.
  - cbn [credentials.ValidateCredentials]. fold (accepts u).
    destruct (accepts u) eqn:Hu.
    + split; [|split].
      * intros role. split.
        -- intros [= <-]. exists [], u, users. repeat split; auto.
        -- intros (before & user & after & Heq & Hbefore & Huser & <-).
           destruct before as [|b before].
           ++ injection Heq as <- _. reflexivity.
           ++ injection Heq as <- _. inversion Hbefore; congruence.
      * split; [discriminate|]. intros H. inversion H; congruence.
      * discriminate.
    + split; [|split].
      * intros role. rewrite IHrole. split.
        -- intros (before & user & after & -> & Hbefore & Huser & <-).
           exists (u :: before), user, after. repeat split; auto.
        -- intros (before & user & after & Heq & Hbefore & Huser & <-).
           destruct before as [|b before].
           ++ injection Heq as <- _. congruence.
           ++ injection Heq as <- ->. inversion Hbefore; subst.
              exists before, user, after. repeat split; auto.
      * rewrite IHfalse. split.
        -- intros H. now constructor.
        -- intros H. now inversion H.
      * exact IHempty.
Qed.

End Credentials.

(** ** More on path normalisation *)
Section NormalForm.
Import planner.
Import filepath (noSeparator, isName, cleanStack).

Lemma Clean_not_empty p : filepath.Clean p <> "".
Proof.
  unfold filepath.Clean.
  destruct (String.eqb p ""); [discriminate|].
  pose proof (fold_cleanStep_cleanStack (filepath.rooted p) _ []
                (elements_noSeparator p) eq_refl) as Hstack.
  destruct (filepath.rooted p); [discriminate|].
  apply cleanStack_names, Forall_rev in Hstack.
  destruct (rev _) as [|x segs]; [discriminate|].
  inversion Hstack as [|? ? Hx _]; subst.
  change (strings.Join (x :: segs) "/") with (pathOf (x :: segs)).
  apply String.eqb_neq. now apply pathOf_name_relative.
Qed.

Lemma Base_not_empty p : filepath.Base p <> "".
Proof.
  unfold filepath.Base. destruct (String.eqb p ""); [discriminate|].
  destruct (String.eqb_spec (snd (filepath.splitLast
                                    (filepath.stripTrailingSeps p))) "");
    [discriminate|assumption].
Qed.

Lemma Join_not_empty (elem : list string) :
  Exists (fun e => e <> "") elem -> filepath.Join elem <> "".
Proof.
  induction elem as [|e elem IH]; intros H; [inversion H|].
  cbn [filepath.Join]. destruct (String.eqb_spec e "") as [->|_].
  - apply IH. now inversion H.
  - apply Clean_not_empty.
Qed.

Lemma HasSuffix_names segs :
  Forall (fun e => isName e = true) segs ->
  strings.HasSuffix (pathOf segs) "/" = false.
Proof.
  intros Hall. pose proof (TrimSuffix_names segs Hall) as Htrim.
  unfold strings.TrimSuffix in Htrim.
  destruct (strings.HasSuffix (pathOf segs) "/") eqn:Hs; [|reflexivity].
  exfalso. assert (Hlen : String.length (pathOf segs) <> 0).
  { destruct (pathOf segs); [discriminate Hs|discriminate]. }
  apply (f_equal String.length) in Htrim.
  assert (Hsub : forall n s, n <= String.length s ->
                   String.length (String.substring 0 n s) = n).
  { induction n as [|n IHn]; intros [|c s]; simpl; intros; try lia.
    rewrite IHn; lia. }
  rewrite Hsub in Htrim by lia. simpl in Htrim. lia.
Qed.

(** What [cleanPath] returns for a path without a back-slash: the dot, or
    names with the separator between them, the [..] ones first. *)
Lemma cleanPath_shape p :
  strings.ContainsRune p "\" = false ->
  handlers.cleanPath p = "."
  \/ exists segs,
       handlers.cleanPath p = pathOf segs
       /\ cleanStack false (rev segs) = true
       /\ Forall (fun e => strings.ContainsRune e "\" = false) segs.
Proof.
  intros Habsent. unfold handlers.cleanPath.
  destruct (String.eqb_spec p "") as [->|Hne].
  { right. exists []. repeat split. constructor. }
  unfold filepath.Clean. apply String.eqb_neq in Hne. rewrite Hne.
  pose proof (fold_cleanStep_cleanStack (filepath.rooted p) _ []
                (elements_noSeparator p) eq_refl) as Hstack.
  pose proof (fold_cleanStep_Forall _ (filepath.rooted p) _ []
                (elements_absent p "\" Habsent) (List.Forall_nil _)) as Hbs.
  set (st := fold_left _ _ _) in *.
  assert (Hnames : Forall (fun e => isName e = true) (rev st)).
  { apply Forall_rev. now apply cleanStack_names in Hstack. }
  apply Forall_rev in Hbs.
  assert (Hrel : cleanStack false (rev (rev st)) = true).
  { rewrite rev_involutive.
    destruct (filepath.rooted p); [now apply cleanStack_rooted_relative|easy]. }
  destruct (filepath.rooted p).
  - right. exists (rev st). split; [|now split].
    rewrite TrimPrefix_separator.
    change (strings.Join (rev st) "/") with (pathOf (rev st)).
    rewrite (TrimSuffix_names _ Hnames).
    apply ReplaceAll_absent, pathOf_absent; [discriminate|assumption].
  - destruct (rev st) as [|x segs] eqn:Hout; [now left|].
    right. exists (x :: segs). split; [|now split].
    change (strings.Join (x :: segs) "/") with (pathOf (x :: segs)).
    now apply trim_output.
Qed.

Lemma ReplaceAll_removes s old new :
  old <> new -> strings.ContainsRune (strings.ReplaceAll s old new) old = false.
Proof.
  intros Hne. induction s as [|c s IH]; [reflexivity|].
  cbn [strings.ReplaceAll strings.ContainsRune]. rewrite IH, orb_false_r.
  destruct (Ascii.eqb_spec c old) as [->|Hc].
  - apply Ascii.eqb_neq. congruence.
  - now apply Ascii.eqb_neq.
Qed.

(** X9. What [cleanPath] returns has no back-slash in it, whatever the
    path. For a path without a back-slash it has no separator at either end
    and is empty or clean: [filepath.Clean] leaves it as it is. *)
Theorem cleanPath_is_normal p :
  strings.ContainsRune (handlers.cleanPath p) "\" = false
  /\ (strings.ContainsRune p "\" = false ->
      filepath.rooted (handlers.cleanPath p) = false
      /\ strings.HasSuffix (handlers.cleanPath p) "/" = false
      /\ (handlers.cleanPath p = ""
          \/ filepath.Clean (handlers.cleanPath p) = handlers.cleanPath p)).
Proof.
  split.
  - unfold handlers.cleanPath. destruct (String.eqb p ""); [reflexivity|].
    now apply ReplaceAll_removes.
  - intros Habsent.
    destruct (cleanPath_shape p Habsent) as [->|(segs & -> & Hstack & _)].
    { repeat split. now right. }
    assert (Hnames : Forall (fun e => isName e = true) segs).
    { apply cleanStack_names, Forall_rev in Hstack.
      now rewrite rev_involutive in Hstack. }
    split; [|split].
    + destruct segs as [|x segs]; [reflexivity|].
      inversion Hnames; subst. now apply pathOf_name_relative.
    + now apply HasSuffix_names.
    + destruct segs as [|x segs]; [now left|]. right.
      now apply Clean_output.
Qed.

End NormalForm.

(** ** More on the handler, on any file system *)
Section Answers.
Context {CF : strings.CaseFolding} {St E : Type} {FS : os.FileSystem St E}.
Implicit Types (r : http.Request) (cfg : config.Config)
  (sessions : auth.Sessions) (fs : St) (moveReq : handlers.MoveRequest).
#[local] Arguments filepath.Join : simpl never.

Lemma isRename_slug moveReq :
  handlers.isRename moveReq = true -> handlers.NewSlug moveReq <> "".
Proof.
  unfold handlers.isRename. now intros H%negb_true_iff%String.eqb_neq.
Qed.

(** The new path, when there is one, is not empty. *)
Lemma resolveNewPath_not_empty moveReq newPath :
  handlers.resolveNewPath moveReq (handlers.isRename moveReq)
                          (handlers.isMove moveReq) = Some newPath ->
  newPath <> "".
Proof.
  unfold handlers.resolveNewPath.
  destruct (handlers.isRename moveReq) eqn:Hrename;
    destruct (handlers.isMove moveReq) eqn:Hmove; cbn [andb negb];
    try discriminate.
  - apply isRename_slug in Hrename.
    destruct (String.eqb (handlers.TargetPath moveReq) "");
      intros [= <-]; [assumption|].
    apply Join_not_empty. right. now left.
  - apply isRename_slug in Hrename. intros [= <-].
    apply Join_not_empty. right. now left.
  - unfold handlers.isMove, handlers.moveToRoot in Hmove.
    destruct (String.eqb_spec (handlers.TargetPath moveReq) "") as [Ht|Ht];
      intros [= <-]; [apply Base_not_empty|].
    apply Join_not_empty. now left.
Qed.

(** Past the check that a target path or a new slug is given, there is a
    new path: the last branch of lines 132-167 is not taken. *)
Lemma resolveNewPath_total moveReq :
  String.eqb (handlers.TargetPath moveReq) ""
  && String.eqb (handlers.NewSlug moveReq) "" = false ->
  handlers.resolveNewPath moveReq (handlers.isRename moveReq)
                          (handlers.isMove moveReq) <> None.
Proof.
  unfold handlers.resolveNewPath, handlers.isMove, handlers.moveToRoot,
    handlers.isRename.
  destruct (String.eqb (handlers.TargetPath moveReq) "");
    destruct (String.eqb (handlers.NewSlug moveReq) "");
    destruct (String.eqb (filepath.Dir (handlers.SourcePath moveReq)) ".");
    cbn [andb negb orb]; discriminate.
Qed.

(** The answers of [relocate], one by one. *)
Lemma relocate_answer cfg moveReq fs :
  String.eqb (handlers.TargetPath moveReq) ""
  && String.eqb (handlers.NewSlug moveReq) "" = false ->
  let '(_, _, resp) := handlers.relocate cfg moveReq fs in
  resp = handlers.sendJSONResponse false "Source document or category not found"
           404 "" ""
  \/ (exists err,
        resp = handlers.sendJSONResponse false
                 ("Error accessing source: " +:+ os.Error err) 500 "" "")
  \/ resp = handlers.sendJSONResponse false
              "A document already exists at the target location" 409 "" ""
  \/ resp = handlers.sendJSONResponse false
              "Target directory already exists and is not empty" 409 "" ""
  \/ (exists err,
        resp = handlers.sendJSONResponse false
                 ("Failed to create target directory: " +:+ os.Error err)
                 500 "" "")
  \/ resp = handlers.sendJSONResponse false
              "Source and target paths are the same" 400 "" ""
  \/ (exists err,
        resp = handlers.sendJSONResponse false
                 ("Failed to move: " +:+ os.Error err) 500 "" "")
  \/ (exists newPath,
        newPath <> ""
        /\ resp = handlers.sendJSONResponse true "Document moved successfully"
                    200 newPath (handlers.SourcePath moveReq)).
Proof.
  intros Hgiven. unfold handlers.relocate.
  destruct (os.Stat fs _) as [err|info].
  { destruct (os.IsNotExist err); cbv beta iota; [now left|right; left; eauto]. }
  pose proof (resolveNewPath_total moveReq Hgiven) as Htotal.
  destruct (handlers.resolveNewPath _ _ _) as [newPath|] eqn:Hnew; [|easy].
  apply resolveNewPath_not_empty in Hnew.
  destruct (handlers.detectConflict _ _ _ _) as [message|] eqn:Hconflict.
  { cbv beta iota. unfold handlers.detectConflict in Hconflict.
    destruct (negb _); [|discriminate].
    destruct (match os.Stat fs _ with inl _ => _ | inr _ => _ end).
    - injection Hconflict as <-. do 2 right. now left.
    - destruct (os.Stat fs _) as [|info']; [discriminate|].
      destruct (os.IsDir info'); [|discriminate].
      destruct (os.ReadDir fs _); [discriminate|].
      destruct (Nat.ltb _ _); [|discriminate].
      injection Hconflict as <-. do 3 right. now left. }
  destruct (os.MkdirAll fs _) as [fs1 [err|]].
  { cbv beta iota. do 4 right. left. eauto. }
  destruct (String.eqb (filepath.Join [_; handlers.SourcePath moveReq]) _);
    [cbv beta iota; do 5 right; now left|].
  destruct (os.Rename fs1 _ _) as [fs2 [err|]].
  { cbv beta iota. do 6 right. left. eauto. }
  pose proof (finishMove_response cfg moveReq newPath fs2) as Hresp.
  destruct (handlers.finishMove _ _ _ fs2) as [[fs3 log4] resp].
  cbn [snd] in Hresp. do 7 right. eauto.
Qed.

(** The answers of the handler, one by one. *)
Lemma handler_answer r body cfg sessions fs :
  let '(_, _, resp) := handlers.MoveDocumentHandler r body cfg sessions fs in
  (exists message code,
     resp = handlers.sendJSONResponse false message code "" ""
     /\ In code [400; 401; 404; 405; 409; 500]
     /\ message <> "Either new slug or target path must be provided"
     /\ (code = 405 <-> http.Method r <> http.MethodPost)
     /\ (code = 401 <-> http.Method r = http.MethodPost
                        /\ auth.GetSession r sessions = None))
  \/ (exists moveReq newPath,
        body = Some moveReq
        /\ http.Method r = http.MethodPost
        /\ is_Some (auth.GetSession r sessions)
        /\ newPath <> ""
        /\ handlers.SourcePath (handlers.normalise moveReq) <> ""
        /\ resp = handlers.sendJSONResponse true "Document moved successfully"
                    200 newPath
                    (handlers.SourcePath (handlers.normalise moveReq))).
Proof.
  assert (Hrefused : forall message code,
            In code [400; 404; 409; 500] ->
            message <> "Either new slug or target path must be provided" ->
            http.Method r = http.MethodPost ->
            is_Some (auth.GetSession r sessions) ->
            exists message' code',
              handlers.sendJSONResponse false message code "" ""
              = handlers.sendJSONResponse false message' code' "" ""
              /\ In code' [400; 401; 404; 405; 409; 500]
              /\ message' <> "Either new slug or target path must be provided"
              /\ (code' = 405 <-> http.Method r <> http.MethodPost)
              /\ (code' = 401 <-> http.Method r = http.MethodPost
                                  /\ auth.GetSession r sessions = None)).
  { intros message code Hcode Hmessage Hm [session Hs].
    exists message, code. split; [reflexivity|]. split.
    { cbn [In] in *. intuition auto. }
    split; [assumption|]. rewrite Hs. cbn [In] in Hcode.
    split; split; intros H; try (exfalso; lia); try easy. }
  destruct (String.eqb_spec (http.Method r) http.MethodPost) as [Hm|Hm].
  2: { rewrite (handler_not_post _ _ _ _ _ Hm). left.
       exists "Method not allowed", 405. split; [reflexivity|].
       split; [cbn; auto 10|]. split; [discriminate|].
       split; split; try easy. }
  destruct (auth.GetSession r sessions) as [session|] eqn:Hs.
  2: { unfold handlers.MoveDocumentHandler. rewrite Hm, Hs.
       cbn [negb String.eqb]. left.
       exists "Unauthorized. Admin or editor access required.", 401.
       split; [reflexivity|]. split; [cbn; auto 10|].
       split; [discriminate|]. split; split; try easy. }
  specialize (fun message code Hcode Hmessage =>
                Hrefused message code Hcode Hmessage Hm
                         (ex_intro _ session eq_refl)).
  destruct body as [moveReq|].
  2: { assert (Hrun : handlers.MoveDocumentHandler r None cfg sessions fs
                       = (fs, [], handlers.sendJSONResponse false
                                    "Invalid request format" 400 "" "")).
       { unfold handlers.MoveDocumentHandler. now rewrite Hm, Hs. }
       rewrite Hrun. left. apply Hrefused; cbn; auto 10; discriminate. }
  rewrite (handler_with_session _ _ _ _ _ _ Hm Hs).
  destruct (String.eqb _ "");
    [left; apply Hrefused; cbn; auto 10; discriminate|].
  destruct (_ && _) eqn:Hgiven;
    [left; apply Hrefused; cbn; auto 10; discriminate|].
  destruct (handlers.isHomeSource _) eqn:Hhome;
    [left; apply Hrefused; cbn; auto 10; discriminate|].
  destruct (handlers.isHomeTarget _);
    [left; apply Hrefused; cbn; auto 10; discriminate|].
  pose proof (relocate_answer cfg (handlers.normalise moveReq) fs Hgiven)
    as Hanswer.
  destruct (handlers.relocate _ _ fs) as [[fs' log] resp].
  destruct Hanswer
    as [->|[(err & ->)|[->|[->|[(err & ->)|[->|[(err & ->)
                                              |(newPath & Hnew & ->)]]]]]]];
    try (left; apply Hrefused; cbn; auto 10; discriminate).
  right. exists moveReq, newPath.
  unfold handlers.isHomeSource in Hhome.
  repeat (apply orb_false_iff in Hhome as [Hhome _]).
  apply String.eqb_neq in Hhome. repeat split; eauto.
Qed.

(** X11. Every answer has one of seven status codes; it says success
    exactly when the code is 200; an answer that is not a success carries no
    path, and a success carries both, neither of them empty. *)
Theorem answer_is_well_formed r body cfg sessions fs :
  let '(_, _, resp) := handlers.MoveDocumentHandler r body cfg sessions fs in
  In (handlers.StatusCode resp) [200; 400; 401; 404; 405; 409; 500]
  /\ (handlers.Success (handlers.Payload resp) = true
      <-> handlers.StatusCode resp = 200)
  /\ (handlers.StatusCode resp <> 200 ->
      handlers.NewPath (handlers.Payload resp) = ""
      /\ handlers.OldPath (handlers.Payload resp) = "")
  /\ (handlers.StatusCode resp = 200 ->
      handlers.NewPath (handlers.Payload resp) <> ""
      /\ handlers.OldPath (handlers.Payload resp) <> "").
Proof.
  pose proof (handler_answer r body cfg sessions fs) as Hanswer.
  destruct (handlers.MoveDocumentHandler _ _ _ _ _) as [[fs' log] resp].
  destruct Hanswer
    as [(message & code & -> & Hcode & _)
       |(moveReq & newPath & _ & _ & _ & Hnew & Hold & ->)];
    rewrite sendJSONResponse_paths;
    cbn [handlers.StatusCode handlers.Payload handlers.Success
         handlers.NewPath handlers.OldPath].
  - cbn [In] in Hcode. split; [cbn [In]; intuition auto|].
    split; [split; [discriminate|intros ->; exfalso; intuition discriminate]|].
    split; [easy|]. intros ->. exfalso. intuition discriminate.
  - split; [now left|]. split; [easy|]. split; [easy|]. easy.
Qed.

(** X12. The two gates before the body is read: the answer is 405 exactly
    when the method is not POST, and 401 exactly when the method is POST and
    the request carries no token of a session. *)
Theorem method_and_session_gates r body cfg sessions fs :
  let '(_, _, resp) := handlers.MoveDocumentHandler r body cfg sessions fs in
  (handlers.StatusCode resp = 405 <-> http.Method r <> http.MethodPost)
  /\ (handlers.StatusCode resp = 401
      <-> http.Method r = http.MethodPost
          /\ auth.GetSession r sessions = None).
Proof.
  pose proof (handler_answer r body cfg sessions fs) as Hanswer.
  destruct (handlers.MoveDocumentHandler _ _ _ _ _) as [[fs' log] resp].
  destruct Hanswer
    as [(message & code & -> & _ & _ & H405 & H401)
       |(moveReq & newPath & _ & Hm & [session Hs] & _ & _ & ->)];
    rewrite sendJSONResponse_paths; cbn [handlers.StatusCode].
  - now split.
  - rewrite Hs. split; split; try discriminate; easy.
Qed.

(** X13. The answer of the last branch of lines 132-167, for a request that
    is neither a rename nor a move, is never given: the check of line 70
    has answered before, with another message. *)
Theorem last_branch_is_never_taken r body cfg sessions fs :
  let '(_, _, resp) := handlers.MoveDocumentHandler r body cfg sessions fs in
  handlers.Message (handlers.Payload resp)
  <> "Either new slug or target path must be provided".
Proof.
  pose proof (handler_answer r body cfg sessions fs) as Hanswer.
  destruct (handlers.MoveDocumentHandler _ _ _ _ _) as [[fs' log] resp].
  destruct Hanswer
    as [(message & code & -> & _ & Hmessage & _)
       |(moveReq & newPath & _ & _ & _ & _ & _ & ->)];
    rewrite sendJSONResponse_paths; cbn [handlers.Payload handlers.Message].
  - exact Hmessage.
  - discriminate.
Qed.

(** X14. After [ClearSession] for a request, the same request is refused by
    the handler: 401, nothing logged, the file system untouched. *)
Theorem logged_out_request_is_refused r body cfg sessions fs :
  http.Method r = http.MethodPost ->
  exists resp,
    handlers.MoveDocumentHandler r body cfg
      (fst (auth.ClearSession r cfg sessions)) fs
    = (fs, [], resp)
    /\ handlers.StatusCode resp = 401.
Proof.
  intros Hm. apply handler_no_session; [assumption|].
  apply GetSession_after_clear.
Qed.

Lemma relocate_not_found cfg moveReq fs :
  let fullSourcePath :=
    filepath.Join
      [filepath.Join [config.RootDir (config.Wiki cfg);
                      config.DocumentsDir (config.Wiki cfg)];
       handlers.SourcePath moveReq] in
  let '(fs', _, resp) := handlers.relocate cfg moveReq fs in
  (handlers.StatusCode resp = 404
   <-> exists err, os.Stat fs fullSourcePath = inl err
                   /\ os.IsNotExist err = true)
  /\ (handlers.StatusCode resp = 404 -> fs' = fs).
Proof.
  intros fullSourcePath. unfold handlers.relocate. fold fullSourcePath.
  destruct (os.Stat fs fullSourcePath) as [err|info].
  { destruct (os.IsNotExist err) eqn:Hne; cbv beta iota.
    - split; [split; eauto|reflexivity].
    - split; [split; [discriminate|]|discriminate].
      intros (err' & [= <-] & Hne'). congruence. }
  assert (Hnot : forall (fs' : St) (resp : handlers.Response),
             handlers.StatusCode resp <> 404 ->
             (handlers.StatusCode resp = 404
              <-> exists err,
                    @inr E os.FileInfo info = inl err
                    /\ os.IsNotExist err = true)
             /\ (handlers.StatusCode resp = 404 -> fs' = fs)).
  { intros fs' resp Hcode.
    split; [split; [easy|intros (err & [=] & _)]|easy]. }
  destruct (handlers.resolveNewPath _ _ _) as [newPath|];
    [|apply Hnot; discriminate].
  destruct (handlers.detectConflict _ _ _ _); [apply Hnot; discriminate|].
  destruct (os.MkdirAll fs _) as [fs1 [err|]]; [apply Hnot; discriminate|].
  destruct (String.eqb fullSourcePath _); [apply Hnot; discriminate|].
  destruct (os.Rename fs1 _ _) as [fs2 [err|]]; [apply Hnot; discriminate|].
  pose proof (finishMove_response cfg moveReq newPath fs2) as Hresp.
  destruct (handlers.finishMove _ _ _ fs2) as [[fs3 log4] resp].
  cbn [snd] in Hresp. subst resp.
  apply Hnot. rewrite sendJSONResponse_paths. discriminate.
Qed.

(** X15. The answer is 404 exactly when the request has passed the checks
    on its fields and [Stat] on the source, below the documents directory,
    fails with an error that [IsNotExist] recognises; the file system is
    then as it was. *)
Theorem not_found_means_missing_source
    r moveReq cfg sessions fs session :
  http.Method r = http.MethodPost ->
  auth.GetSession r sessions = Some session ->
  let normal := handlers.normalise moveReq in
  let fullSourcePath :=
    filepath.Join
      [filepath.Join [config.RootDir (config.Wiki cfg);
                      config.DocumentsDir (config.Wiki cfg)];
       handlers.SourcePath normal] in
  let '(fs', _, resp) :=
    handlers.MoveDocumentHandler r (Some moveReq) cfg sessions fs in
  (handlers.StatusCode resp = 404
   <-> handlers.SourcePath moveReq <> ""
       /\ (handlers.TargetPath normal <> "" \/ handlers.NewSlug normal <> "")
       /\ handlers.isHomeSource (handlers.SourcePath normal) = false
       /\ handlers.isHomeTarget (handlers.TargetPath normal) = false
       /\ exists err, os.Stat fs fullSourcePath = inl err
                      /\ os.IsNotExist err = true)
  /\ (handlers.StatusCode resp = 404 -> fs' = fs).
Proof.
  intros Hm Hs normal fullSourcePath.
  rewrite (handler_with_session _ _ _ _ _ _ Hm Hs). fold normal.
  change (handlers.NewSlug moveReq) with (handlers.NewSlug normal).
  destruct (String.eqb_spec (handlers.SourcePath moveReq) "") as [Hsrc|Hsrc].
  { split; [split; [discriminate|intros (? & _); contradiction]
           |discriminate]. }
  destruct (String.eqb_spec (handlers.TargetPath normal) "") as [Ht|Ht];
    destruct (String.eqb_spec (handlers.NewSlug normal) "") as [Hn|Hn];
    cbn [andb].
  1: { split; [split; [discriminate|intros (_ & [?|?] & _); contradiction]
              |discriminate]. }
  all: destruct (handlers.isHomeSource _) eqn:Hhs;
    [split; [split; [discriminate|intros (_ & _ & ? & _); discriminate]
            |discriminate]|].
  all: destruct (handlers.isHomeTarget _) eqn:Hht;
    [split; [split; [discriminate|intros (_ & _ & _ & ? & _); discriminate]
            |discriminate]|].
  all: pose proof (relocate_not_found cfg normal fs) as Hrel;
    cbv zeta in Hrel; fold fullSourcePath in Hrel;
    destruct (handlers.relocate cfg normal fs) as [[fs' log] resp];
    destruct Hrel as [Hiff Hfs]; split; [|exact Hfs];
    rewrite Hiff; split; [intros H; repeat split; auto|tauto].
Qed.

(** X16. A failure of [MkdirAll] on the parent of the target, or of the
    rename of the document, is answered 500 with the text of the error; the
    state is the one the failing call left: the versions and the comments
    are not looked at, and no warning is logged. *)
Theorem failed_move_is_fatal cfg moveReq fs info newPath :
  let documentDir :=
    filepath.Join [config.RootDir (config.Wiki cfg);
                   config.DocumentsDir (config.Wiki cfg)] in
  let fullSourcePath :=
    filepath.Join [documentDir; handlers.SourcePath moveReq] in
  let fullTargetPath := filepath.Join [documentDir; newPath] in
  os.Stat fs fullSourcePath = inr info ->
  handlers.resolveNewPath moveReq (handlers.isRename moveReq)
                          (handlers.isMove moveReq) = Some newPath ->
  handlers.detectConflict fs moveReq fullSourcePath fullTargetPath = None ->
  (forall fs1 err,
     os.MkdirAll fs (filepath.Dir fullTargetPath) = (fs1, Some err) ->
     exists log,
       handlers.relocate cfg moveReq fs
       = (fs1, log,
          handlers.sendJSONResponse false
            ("Failed to create target directory: " +:+ os.Error err) 500 "" "")
       /\ List.filter handlers.isWarning log = [])
  /\ (forall fs1 fs2 err,
        os.MkdirAll fs (filepath.Dir fullTargetPath) = (fs1, None) ->
        fullSourcePath <> fullTargetPath ->
        os.Rename fs1 fullSourcePath fullTargetPath = (fs2, Some err) ->
        exists log,
          handlers.relocate cfg moveReq fs
          = (fs2, log,
             handlers.sendJSONResponse false
               ("Failed to move: " +:+ os.Error err) 500 "" "")
          /\ List.filter handlers.isWarning log = []
          /\ List.last log handlers.LogSamePathWarning
             = handlers.LogMoveError err).
Proof.
  intros documentDir fullSourcePath fullTargetPath Hstat Hnew Hconflict.
  split.
  - intros fs1 err Hmkdir. unfold handlers.relocate.
    fold documentDir. fold fullSourcePath. rewrite Hstat, Hnew.
    fold fullTargetPath. rewrite Hconflict, Hmkdir.
    eexists. split; [reflexivity|].
    destruct (handlers.moveToRoot moveReq); reflexivity.
  - intros fs1 fs2 err Hmkdir Hne Hrename. unfold handlers.relocate.
    fold documentDir. fold fullSourcePath. rewrite Hstat, Hnew.
    fold fullTargetPath. rewrite Hconflict, Hmkdir.
    destruct (String.eqb_spec fullSourcePath fullTargetPath); [easy|].
    rewrite Hrename. eexists. split; [reflexivity|].
    destruct (handlers.moveToRoot moveReq); split; reflexivity.
Qed.

(** X17. A conflict is reported only for a target that is not the source
    and where something is: a document, or a directory that [ReadDir] finds
    not empty. *)
Theorem conflict_means_target_occupied
    fs moveReq (fullSourcePath fullTargetPath message : string) :
  handlers.detectConflict fs moveReq fullSourcePath fullTargetPath
  = Some message ->
  fullTargetPath <> fullSourcePath
  /\ ((exists info,
         os.Stat fs (filepath.Join [fullTargetPath; "document.md"])
         = inr info)
      \/ (exists info entries,
            os.Stat fs fullTargetPath = inr info
            /\ os.IsDir info = true
            /\ os.ReadDir fs fullTargetPath = inr entries
            /\ entries <> [])).
Proof.
  unfold handlers.detectConflict.
  destruct (String.eqb_spec fullTargetPath fullSourcePath) as [|Hne];
    cbn [negb]; [discriminate|].
  intros H. split; [assumption|].
  destruct (os.Stat fs (filepath.Join [fullTargetPath; "document.md"]))
    as [err|info]; [|left; eauto].
  right. destruct (os.Stat fs fullTargetPath) as [|info]; [discriminate|].
  destruct (os.IsDir info) eqn:Hdir; [|discriminate].
  destruct (os.ReadDir fs fullTargetPath) as [|entries]; [discriminate|].
  exists info, entries. repeat split; auto.
  intros ->. discriminate.
Qed.

Lemma relocate_success cfg moveReq fs :
  let documentDir :=
    filepath.Join [config.RootDir (config.Wiki cfg);
                   config.DocumentsDir (config.Wiki cfg)] in
  let fullSourcePath :=
    filepath.Join [documentDir; handlers.SourcePath moveReq] in
  let '(fs', _, resp) := handlers.relocate cfg moveReq fs in
  handlers.StatusCode resp = 200 ->
  exists newPath info fs1 fs2,
    let fullTargetPath := filepath.Join [documentDir; newPath] in
    handlers.resolveNewPath moveReq (handlers.isRename moveReq)
                            (handlers.isMove moveReq) = Some newPath
    /\ os.Stat fs fullSourcePath = inr info
    /\ handlers.detectConflict fs moveReq fullSourcePath fullTargetPath = None
    /\ os.MkdirAll fs (filepath.Dir fullTargetPath) = (fs1, None)
    /\ fullSourcePath <> fullTargetPath
    /\ os.Rename fs1 fullSourcePath fullTargetPath = (fs2, None)
    /\ fs' = fst (fst (handlers.finishMove cfg moveReq newPath fs2)).
Proof.
  intros documentDir fullSourcePath. unfold handlers.relocate.
  fold documentDir. fold fullSourcePath.
  destruct (os.Stat fs fullSourcePath) as [err|info].
  { destruct (os.IsNotExist err); discriminate. }
  destruct (handlers.resolveNewPath _ _ _) as [newPath|]; [|discriminate].
  destruct (handlers.detectConflict _ _ _ _) eqn:Hconflict; [discriminate|].
  destruct (os.MkdirAll fs _) as [fs1 [err|]] eqn:Hmkdir; [discriminate|].
  destruct (String.eqb_spec fullSourcePath
              (filepath.Join [documentDir; newPath])) as [|Hne];
    [discriminate|].
  destruct (os.Rename fs1 _ _) as [fs2 [err|]] eqn:Hrename; [discriminate|].
  destruct (handlers.finishMove _ _ _ fs2) as [[fs3 log4] resp] eqn:Hfinish.
  intros _. exists newPath, info, fs1, fs2. cbv zeta.
  rewrite Hfinish. repeat split; auto.
Qed.

(** X20. The answer 200 is given only after the work is done: the source
    was found by [Stat], no conflict was detected, [MkdirAll] on the parent
    of the target and [Rename] of the source to the target, which differ,
    have both succeeded, and the state left is the one after the secondary
    directories have been tried. *)
Theorem success_means_document_was_renamed r body cfg sessions fs :
  let '(fs', _, resp) := handlers.MoveDocumentHandler r body cfg sessions fs in
  handlers.StatusCode resp = 200 ->
  exists moveReq newPath info fs1 fs2,
    let normal := handlers.normalise moveReq in
    let documentDir :=
      filepath.Join [config.RootDir (config.Wiki cfg);
                     config.DocumentsDir (config.Wiki cfg)] in
    let fullSourcePath :=
      filepath.Join [documentDir; handlers.SourcePath normal] in
    let fullTargetPath := filepath.Join [documentDir; newPath] in
    body = Some moveReq
    /\ handlers.resolveNewPath normal (handlers.isRename normal)
                               (handlers.isMove normal) = Some newPath
    /\ os.Stat fs fullSourcePath = inr info
    /\ handlers.detectConflict fs normal fullSourcePath fullTargetPath = None
    /\ os.MkdirAll fs (filepath.Dir fullTargetPath) = (fs1, None)
    /\ fullSourcePath <> fullTargetPath
    /\ os.Rename fs1 fullSourcePath fullTargetPath = (fs2, None)
    /\ fs' = fst (fst (handlers.finishMove cfg normal newPath fs2)).
Proof.
  destruct (String.eqb_spec (http.Method r) http.MethodPost) as [Hm|Hm].
  2: { rewrite (handler_not_post _ _ _ _ _ Hm). discriminate. }
  destruct (auth.GetSession r sessions) as [session|] eqn:Hs.
  2: { destruct (handler_no_session r body cfg sessions fs Hm Hs)
         as (resp & -> & Hcode). rewrite Hcode. discriminate. }
  destruct body as [moveReq|].
  2: { unfold handlers.MoveDocumentHandler. rewrite Hm, Hs. discriminate. }
  rewrite (handler_with_session _ _ _ _ _ _ Hm Hs).
  destruct (String.eqb _ ""); [discriminate|].
  destruct (_ && _); [discriminate|].
  destruct (handlers.isHomeSource _); [discriminate|].
  destruct (handlers.isHomeTarget _); [discriminate|].
  pose proof (relocate_success cfg (handlers.normalise moveReq) fs) as Hrel.
  cbv zeta in Hrel.
  destruct (handlers.relocate _ _ fs) as [[fs' log] resp].
  intros Hcode.
  destruct (Hrel Hcode) as (newPath & info & fs1 & fs2 & H).
  exists moveReq, newPath, info, fs1, fs2. cbv zeta. split; [reflexivity|].
  exact H.
Qed.

End Answers.

(** ** Where the versions are kept *)

(** X18. A path that starts with [documents/] and the same path without
    that prefix have their versions in one directory. *)
Theorem versions_of_prefixed_path_coincide (rootDir path : string) :
  strings.HasPrefix path "documents/" = false ->
  path <> "pages/home" ->
  handlers.versionsPath rootDir ("documents/" +:+ path)
  = handlers.versionsPath rootDir path.
Proof.
  intros Hprefix Hhome. unfold handlers.versionsPath.
  apply String.eqb_neq in Hhome. rewrite Hhome, Hprefix.
  change (String.eqb ("documents/" +:+ path) "pages/home") with false.
  assert (Hp : strings.HasPrefix ("documents/" +:+ path) "documents/" = true).
  { unfold strings.HasPrefix. rewrite !append_cons, append_nil.
    cbn [String.prefix].
    repeat match goal with
           | |- context [ascii_dec ?a ?a] =>
               destruct (ascii_dec a a); [|congruence]
           end.
    now destruct path. }
  rewrite Hp. cbn [filepath.Join].
  destruct (String.eqb rootDir ""); cbn [String.eqb]; f_equal;
    cbn [strings.Join]; now rewrite ?append_assoc, ?append_cons, ?append_nil.
Qed.

(** ** Further instances on the sample wiki *)
Section FurtherInstances.
#[local] Existing Instance strings.asciiFolding.

Lemma cleanPath_idempotent_without_backslash_witness :
  handlers.cleanPath (handlers.cleanPath "/Projects//test/../notes/")
  = handlers.cleanPath "/Projects//test/../notes/".
Proof.
  apply (cleanPath_idempotent_without_backslash "/Projects//test/../notes/").
  reflexivity.
Defined.

Lemma relocated_path_follows_plan_witness :
  let moveReq :=
    {| handlers.SourcePath := planner.pathOf ["Projects"; "test"];
       handlers.TargetPath := planner.pathOf ["Archive"];
       handlers.NewSlug := "" |} in
  let '(_, _, resp) :=
    handlers.MoveDocumentHandler (sample.post "tok-editor") (Some moveReq)
      sample.cfg sample.sessions sample.tree in
  handlers.StatusCode resp = 200
  /\ exists kind,
       planner.classify (handlers.isRename moveReq) (handlers.isMove moveReq)
       = Some kind
       /\ handlers.NewPath (handlers.Payload resp)
          = planner.pathOf
              (planner.resolvedTarget kind ["Projects"; "test"] ["Archive"] "")
       /\ handlers.OldPath (handlers.Payload resp)
          = planner.pathOf ["Projects"; "test"].
Proof.
  intros moveReq.
  pose proof (relocated_path_follows_plan (sample.post "tok-editor")
                sample.cfg sample.sessions sample.tree
                ["Projects"; "test"] ["Archive"] "") as H.
  cbv zeta in H. fold moveReq in H.
  destruct (handlers.MoveDocumentHandler _ _ _ _ _) as [[fs log] resp] eqn:Hrun.
  assert (Hcode : handlers.StatusCode resp = 200).
  { vm_compute in Hrun. now injection Hrun as _ _ <-. }
  split; [exact Hcode|].
  apply H; [discriminate | repeat constructor | repeat constructor
            | now left | repeat constructor | exact Hcode].
Defined.

Lemma logged_out_request_is_refused_witness :
  exists resp,
    handlers.MoveDocumentHandler (sample.post "tok-editor")
      (Some (sample.move "Projects/test" "Archive" "")) sample.cfg
      (fst (auth.ClearSession (sample.post "tok-editor") sample.cfg
              sample.sessions))
      sample.tree
    = (sample.tree, [], resp)
    /\ handlers.StatusCode resp = 401.
Proof.
  apply (logged_out_request_is_refused (sample.post "tok-editor")).
  reflexivity.
Defined.

Lemma not_found_means_missing_source_witness :
  let '(fs, _, resp) :=
    sample.asEditor (sample.move "Nowhere/page" "Archive" "") in
  handlers.StatusCode resp = 404 /\ fs = sample.tree.
Proof.
  pose proof (not_found_means_missing_source (sample.post "tok-editor")
                (sample.move "Nowhere/page" "Archive" "") sample.cfg
                sample.sessions sample.tree
                {| auth.Username := "alice"; auth.Role := "editor";
                   auth.CreatedAt := 0 |} eq_refl eq_refl) as H.
  cbv zeta in H. unfold sample.asEditor.
  destruct (handlers.MoveDocumentHandler _ _ _ _ _) as [[fs log] resp].
  destruct H as [Hiff Hfs].
  assert (Hcode : handlers.StatusCode resp = 404).
  { apply Hiff. split; [discriminate|]. split; [left; discriminate|].
    split; [reflexivity|]. split; [reflexivity|].
    eexists. split; vm_compute; reflexivity. }
  split; [exact Hcode|exact (Hfs Hcode)].
Defined.

Lemma failed_move_is_fatal_witness :
  (exists log,
     handlers.relocate sample.cfg
       (handlers.normalise
          (sample.move "Projects/test" "homepage/document.md" ""))
       sample.tree
     = (sample.tree, log,
        handlers.sendJSONResponse false
          "Failed to create target directory: mkdir data/documents/homepage/document.md: not a directory"
          500 "" "")
     /\ List.filter handlers.isWarning log = [])
  /\ (exists log,
        handlers.relocate sample.cfg
          (handlers.normalise (sample.move "Projects" "Projects/test" ""))
          sample.tree
        = (sample.tree, log,
           handlers.sendJSONResponse false
             "Failed to move: rename data/documents/Projects data/documents/Projects/test/Projects: invalid argument"
             500 "" "")
        /\ List.filter handlers.isWarning log = []
        /\ List.last log handlers.LogSamePathWarning
           = handlers.LogMoveError
               {| memfs.Op := "rename";
                  memfs.Path :=
                    "data/documents/Projects data/documents/Projects/test/Projects";
                  memfs.Err := memfs.EINVAL |}).
Proof.
  split.
  - pose proof (failed_move_is_fatal sample.cfg
                  (handlers.normalise
                     (sample.move "Projects/test" "homepage/document.md" ""))
                  sample.tree {| os.IsDir := true |}
                  "homepage/document.md/test") as H.
    cbv zeta in H.
    destruct (H ltac:(vm_compute; reflexivity) ltac:(vm_compute; reflexivity)
                ltac:(vm_compute; reflexivity)) as [Hmkdir _].
    destruct (Hmkdir sample.tree
                {| memfs.Op := "mkdir";
                   memfs.Path := "data/documents/homepage/document.md";
                   memfs.Err := memfs.ENOTDIR |}
                ltac:(vm_compute; reflexivity)) as (log & Hrun & Hlog).
    exists log. split; [|exact Hlog]. rewrite Hrun. vm_compute. reflexivity.
  - pose proof (failed_move_is_fatal sample.cfg
                  (handlers.normalise
                     (sample.move "Projects" "Projects/test" ""))
                  sample.tree {| os.IsDir := true |}
                  "Projects/test/Projects") as H.
    cbv zeta in H.
    destruct (H ltac:(vm_compute; reflexivity) ltac:(vm_compute; reflexivity)
                ltac:(vm_compute; reflexivity)) as [_ Hrename].
    destruct (Hrename sample.tree sample.tree
                {| memfs.Op := "rename";
                   memfs.Path :=
                     "data/documents/Projects data/documents/Projects/test/Projects";
                   memfs.Err := memfs.EINVAL |}
                ltac:(vm_compute; reflexivity) ltac:(vm_compute; discriminate)
                ltac:(vm_compute; reflexivity)) as (log & Hrun & Hlog & Hlast).
    exists log. split; [|split; [exact Hlog|exact Hlast]].
    rewrite Hrun. vm_compute. reflexivity.
Defined.

Lemma conflict_means_target_occupied_witness :
  "data/documents/Other/Test" <> "data/documents/Projects/test"
  /\ ((exists info,
         os.Stat sample.tree
           (filepath.Join ["data/documents/Other/Test"; "document.md"])
         = inr info)
      \/ (exists info entries,
            os.Stat sample.tree "data/documents/Other/Test" = inr info
            /\ os.IsDir info = true
            /\ os.ReadDir sample.tree "data/documents/Other/Test" = inr entries
            /\ entries <> [])).
Proof.
  apply (conflict_means_target_occupied sample.tree
           (handlers.normalise (sample.move "Projects/test" "Other" "Test"))
           "data/documents/Projects/test" "data/documents/Other/Test"
           "Target directory already exists and is not empty").
  vm_compute. reflexivity.
Defined.

Lemma versions_of_prefixed_path_coincide_witness :
  handlers.versionsPath "data" ("documents/" +:+ "Projects/test")
  = handlers.versionsPath "data" "Projects/test".
Proof.
  apply (versions_of_prefixed_path_coincide "data" "Projects/test");
    [reflexivity|discriminate].
Defined.

Lemma success_means_document_was_renamed_witness :
  let '(fs, _, resp) :=
    sample.asEditor (sample.move "Projects/test" "Archive" "") in
  handlers.StatusCode resp = 200
  /\ exists info fs1 fs2,
       os.Stat sample.tree "data/documents/Projects/test" = inr info
       /\ os.MkdirAll sample.tree "data/documents/Archive" = (fs1, None)
       /\ os.Rename fs1 "data/documents/Projects/test"
                    "data/documents/Archive/test" = (fs2, None).
Proof.
  pose proof (success_means_document_was_renamed (sample.post "tok-editor")
                (Some (sample.move "Projects/test" "Archive" "")) sample.cfg
                sample.sessions sample.tree) as H.
  unfold sample.asEditor.
  destruct (handlers.MoveDocumentHandler _ _ _ _ _) as [[fs log] resp] eqn:Hrun.
  assert (Hcode : handlers.StatusCode resp = 200).
  { vm_compute in Hrun. now injection Hrun as _ _ <-. }
  split; [exact Hcode|].
  destruct (H Hcode) as (moveReq & newPath & info & fs1 & fs2 & Hall).
  cbv zeta in Hall.
  destruct Hall as ([= <-] & Hnew & Hstat & _ & Hmkdir & _ & Hrename & _).
  vm_compute in Hnew. injection Hnew as <-.
  exists info, fs1, fs2. split; [exact Hstat|]. split; [exact Hmkdir|].
  exact Hrename.
Defined.

End FurtherInstances.
